(** * Anvil region files: a model of [anvil/region.py] and its properties

    The [Region] class keeps the bytes of one [.mca] file and answers three
    questions about a chunk coordinate: where its header entry lives
    ([header_offset]), what that entry says ([chunk_location]) and what the
    chunk's record decodes to ([chunk_data]).  [get_chunk] wraps the decoded
    tree and [load] sweeps all 32 x 32 coordinates.

    Python integers are unbounded, so they are [Z]; [bytes] objects are lists
    of [Byte.byte]; the methods run in a small state-and-exception monad whose
    state is the [Region] object together with the trace of calls made to
    [zlib.decompress]. *)

From Stdlib Require Import ZArith List Strings.String Strings.Byte Lia Bool.
Import ListNotations.
Open Scope Z_scope.

Set Implicit Arguments.

(** ** Python's [bytes] *)

Module Py.

Definition bytes := list byte.

Definition byte_val (b : byte) : Z := Z.of_N (Byte.to_N b).

Definition len (s : bytes) : Z := Z.of_nat (List.length s).

(** [s[i]]: a negative index counts from the end; outside the object the
    access raises [IndexError], here [None]. *)
Definition getitem (s : bytes) (i : Z) : option Z :=
  let j := if i <? 0 then i + len s else i in
  if (j <? 0) || (len s <=? j) then None
  else option_map byte_val (nth_error s (Z.to_nat j)).

(** How a slice bound is brought into [0, len s]. *)
Definition clamp (s : bytes) (i : Z) : Z :=
  if i <? 0 then Z.max 0 (i + len s) else Z.min i (len s).

(** [s[a:b]]: never raises, the bounds are clipped to the object. *)
Definition slice (s : bytes) (a b : Z) : bytes :=
  let a' := clamp s a in
  let b' := clamp s b in
  firstn (Z.to_nat (b' - a')) (skipn (Z.to_nat a') s).

(** [int.from_bytes(s, byteorder='big')]. *)
Definition from_bytes_big (s : bytes) : Z :=
  fold_left (fun acc b => acc * 256 + byte_val b) s 0.

(** [n.to_bytes(4, byteorder='big')] for [0 <= n < 2^32]. *)
Definition byte_of (v : Z) : byte :=
  match Byte.of_N (Z.to_N (v mod 256)) with
  | Some b => b
  | None => x00
  end.

Definition to_bytes_big4 (n : Z) : bytes :=
  [byte_of (n / 16777216); byte_of (n / 65536); byte_of (n / 256); byte_of n].

(** [range(n)]. *)
Definition range (n : nat) : list Z := map Z.of_nat (seq 0 n).

End Py.

(** ** [Region.header_offset] *)

(** [4 * (chunk_x % 32 + chunk_z % 32 * 32)]; Python's [%] with a positive
    divisor is the floored modulo, which is [Z.modulo]. *)
Definition header_offset (chunk_x chunk_z : Z) : Z :=
  4 * (chunk_x mod 32 + chunk_z mod 32 * 32).

(** A chunk record as the file format lays it out: the 4-byte big-endian
    length [L], the compression tag, then the payload. *)
Definition chunk_record (L : Z) (tag : byte) (payload : Py.bytes) : Py.bytes :=
  Py.to_bytes_big4 L ++ [tag] ++ payload.

(** The coordinates in the order of two nested loops over [range(32)], the
    first coordinate in the outer loop. *)
Definition coords : list (Z * Z) :=
  flat_map (fun cx => map (pair cx) (Py.range 32)) (Py.range 32).

(** ** Exceptions, results and the monad of the methods *)

Inductive exn : Type :=
| IndexError                      (* indexing [bytes] out of range *)
| OSError                         (* [open] failed *)
| GZipChunkData (msg : string)    (* [anvil.errors.GZipChunkData] *)
| zlib_error                      (* raised by [zlib.decompress] *)
| MalformedFileError              (* raised by [nbt.NBTFile] *)
| ChunkError.                     (* raised by [anvil.Chunk] *)

Inductive result (A : Type) : Type :=
| Ok (a : A)
| Raise (e : exn).
Arguments Raise {A} e.

Section Region.

(** The collaborators that [region.py] imports.  [nbt_t] is the type of
    [nbt.NBTFile] objects and [chunk_t] that of [anvil.Chunk] objects; each
    function answers [None] where the Python callable raises. *)
Variables nbt_t chunk_t : Type.
Variable zlib_decompress : Py.bytes -> option Py.bytes.
Variable NBTFile : Py.bytes -> option nbt_t.
Variable Chunk : option nbt_t -> option chunk_t.
Variable read_file : string -> option Py.bytes.

(** The three slots of a [Region] object. *)
Record Region : Type := mkRegion {
  name : string;
  data : Py.bytes;
  chunks : list chunk_t
}.

(** What a method can see and change: the object it is called on, and the
    arguments [zlib.decompress] has been called with so far. *)
Record state : Type := mkState {
  self : Region;
  inflated : list Py.bytes
}.

Definition M (A : Type) : Type := state -> result A * state.

Definition ret {A} (a : A) : M A := fun st => (Ok a, st).

Definition raise {A} (e : exn) : M A := fun st => (Raise e, st).

Definition bind {A B} (m : M A) (k : A -> M B) : M B :=
  fun st =>
    match m st with
    | (Ok a, st') => k a st'
    | (Raise e, st') => (Raise e, st')
    end.

Notation "x <- m ;; k" := (bind m (fun x => k))
  (at level 61, m at next level, right associativity).

(** [for x in xs: body(x)] *)
Fixpoint for_ {A} (xs : list A) (body : A -> M unit) : M unit :=
  match xs with
  | [] => ret tt
  | x :: xs' => _ <- body x ;; for_ xs' body
  end.

(** [self.data] *)
Definition self_data : M Py.bytes := fun st => (Ok (data (self st)), st).

(** [s[i]] as a statement that may raise. *)
Definition index (s : Py.bytes) (i : Z) : M Z :=
  match Py.getitem s i with
  | Some v => ret v
  | None => raise IndexError
  end.

(** [zlib.decompress(s)]; the call is recorded whatever its outcome. *)
Definition call_zlib_decompress (s : Py.bytes) : M Py.bytes :=
  fun st =>
    (match zlib_decompress s with
     | Some p => Ok p
     | None => Raise zlib_error
     end,
     mkState (self st) (inflated st ++ [s])).

(** [nbt.NBTFile(buffer=BytesIO(p))] *)
Definition call_NBTFile (p : Py.bytes) : M nbt_t :=
  match NBTFile p with
  | Some t => ret t
  | None => raise MalformedFileError
  end.

(** [anvil.Chunk(t)]; [t] is [None] when [chunk_data] returned nothing. *)
Definition call_Chunk (t : option nbt_t) : M chunk_t :=
  match Chunk t with
  | Some c => ret c
  | None => raise ChunkError
  end.

(** [self.chunks.append(c)] *)
Definition chunks_append (c : chunk_t) : M unit :=
  fun st =>
    let r := self st in
    (Ok tt, mkState (mkRegion (name r) (data r) (chunks r ++ [c])) (inflated st)).

(** [Region.__init__]: the whole file is read, the chunk list starts empty. *)
Definition init (file_name : string) : result Region :=
  match read_file file_name with
  | Some contents => Ok (mkRegion file_name contents [])
  | None => Raise OSError
  end.

(** What [nbt.NBTFile] makes of a plaintext, and what the last line of
    [chunk_data] makes of the compressed bytes. *)
Definition parse_result (p : Py.bytes) : result (option nbt_t) :=
  match NBTFile p with
  | Some t => Ok (Some t)
  | None => Raise MalformedFileError
  end.

Definition inflate_result (s : Py.bytes) : result (option nbt_t) :=
  match zlib_decompress s with
  | Some p => parse_result p
  | None => Raise zlib_error
  end.

(** [Region.chunk_location] *)
Definition chunk_location (chunk_x chunk_z : Z) : M (Z * Z) :=
  let b_off := header_offset chunk_x chunk_z in
  d <- self_data ;;
  let off := Py.from_bytes_big (Py.slice d b_off (b_off + 3)) in
  sectors <- index d (b_off + 3) ;;
  ret (off, sectors).

(** [off == (0, 0)] *)
Definition is_zero_pair (p : Z * Z) : bool := (fst p =? 0) && (snd p =? 0).

(** [Region.chunk_data]; the bare [return] is [None]. *)
Definition chunk_data (chunk_x chunk_z : Z) : M (option nbt_t) :=
  loc <- chunk_location chunk_x chunk_z ;;
  if is_zero_pair loc then ret None
  else
    let off := fst loc * 4096 in
    d <- self_data ;;
    let length := Py.from_bytes_big (Py.slice d off (off + 4)) in
    compression <- index d (off + 4) ;;
    if compression =? 1 then raise (GZipChunkData "GZip is not supported")
    else
      let compressed_data := Py.slice d (off + 5) (off + 5 + length - 1) in
      p <- call_zlib_decompress compressed_data ;;
      t <- call_NBTFile p ;;
      ret (Some t).

(** The outcome of [chunk_data] once the header entry [loc] is known: the
    branches of the method, with the calls of the last line folded into
    [inflate_result]. *)
Definition after_location (st : state) (loc : Z * Z)
  : result (option nbt_t) * state :=
  if is_zero_pair loc then (Ok None, st)
  else
    let d := data (self st) in
    let off := fst loc * 4096 in
    match Py.getitem d (off + 4) with
    | None => (Raise IndexError, st)
    | Some c =>
        if c =? 1 then (Raise (GZipChunkData "GZip is not supported"), st)
        else
          let L := Py.from_bytes_big (Py.slice d off (off + 4)) in
          let s := Py.slice d (off + 5) (off + 5 + L - 1) in
          (inflate_result s, mkState (self st) (inflated st ++ [s]))
    end.

(** [Region.get_chunk] *)
Definition get_chunk (chunk_x chunk_z : Z) : M chunk_t :=
  t <- chunk_data chunk_x chunk_z ;;
  call_Chunk t.

(** [Region.load] *)
Definition load : M unit :=
  for_ (Py.range 32) (fun cx =>
    for_ (Py.range 32) (fun cz =>
      c <- get_chunk cx cz ;;
      chunks_append c)).

(** The body of the inner loop of [load], on a coordinate pair. *)
Definition load_step (p : Z * Z) : M unit :=
  c <- get_chunk (fst p) (snd p) ;;
  chunks_append c.

(** [n] calls of [load] in a row, stopping at the first that raises. *)
Fixpoint load_times (n : nat) : M unit :=
  match n with
  | O => ret tt
  | S n' => _ <- load ;; load_times n'
  end.

End Region.

(** ** Stand-ins for the imported libraries

    [zlib], [nbt] and [anvil.Chunk] are imported by [region.py]; the model
    takes them as parameters.  The definitions of this module are concrete
    choices for those parameters, with which the model can be run on sample
    region files. *)

Module Stored.

(** A reader for zlib streams (RFC 1950) whose deflate blocks are all of the
    stored kind (RFC 1951, 3.2.4), which is what [zlib.compress(p, 0)]
    writes.  Bytes after the checksum are ignored, a stream that ends early
    is an error, as with [zlib.decompress]. *)

Definition adler32 (s : Py.bytes) : Z :=
  let step (ab : Z * Z) (x : byte) :=
    let a := (fst ab + Py.byte_val x) mod 65521 in
    (a, (snd ab + a) mod 65521) in
  let ab := fold_left step s (1, 0) in
  snd ab * 65536 + fst ab.

Fixpoint blocks (fuel : nat) (s : Py.bytes) : option (Py.bytes * Py.bytes) :=
  match fuel, s with
  | S fuel', h :: l0 :: l1 :: n0 :: n1 :: rest =>
      let size := Py.byte_val l0 + 256 * Py.byte_val l1 in
      let nsize := Py.byte_val n0 + 256 * Py.byte_val n1 in
      if negb (Z.land (Z.shiftr (Py.byte_val h) 1) 3 =? 0) then None
      else if negb (Z.lxor size 65535 =? nsize) then None
      else if Py.len rest <? size then None
      else
        let body := firstn (Z.to_nat size) rest in
        let rest' := skipn (Z.to_nat size) rest in
        if Z.testbit (Py.byte_val h) 0 then Some (body, rest')
        else
          match blocks fuel' rest' with
          | Some (out, r) => Some (body ++ out, r)
          | None => None
          end
  | _, _ => None
  end.

Definition decompress (s : Py.bytes) : option Py.bytes :=
  match s with
  | cmf :: flg :: rest =>
      let c := Py.byte_val cmf in
      let f := Py.byte_val flg in
      if (Z.land c 15 =? 8) && ((c * 256 + f) mod 31 =? 0) && negb (Z.testbit f 5)
      then
        match blocks (List.length rest) rest with
        | Some (out, a3 :: a2 :: a1 :: a0 :: _) =>
            if Py.from_bytes_big [a3; a2; a1; a0] =? adler32 out
            then Some out else None
        | _ => None
        end
      else None
  | _ => None
  end.

End Stored.

Module Sample.

(** The decoded tree is kept opaque: the decoder hands back the bytes it
    was given. *)
Definition tree : Type := Py.bytes.
Definition parse (p : Py.bytes) : option tree := Some p.

(** Modelled from the spec: [anvil.Chunk], the class [get_chunk] wraps the
    decoded tree in, is not part of [region.py].  By the spec (4.4) a
    retrieval is one of present(decoded tree) and absent, absent when the
    payload decode returned nothing. *)
Inductive entry : Type :=
| present (t : tree)
| absent.

Definition wrap (t : option tree) : option entry :=
  match t with
  | Some t' => Some (present t')
  | None => Some absent
  end.

(** [buf] with the bytes [bs] written at offset [off]. *)
Definition put (off : Z) (bs buf : Py.bytes) : Py.bytes :=
  firstn (Z.to_nat off) buf ++ bs
    ++ skipn (Z.to_nat off + List.length bs) buf.

(** [zlib.compress(b"hello", 0)] *)
Definition hello : Py.bytes :=
  [x68; x65; x6c; x6c; x6f]%byte.
Definition hello_z : Py.bytes :=
  [x78; x01; x01; x05; x00; xfa; xff; x68; x65; x6c; x6c; x6f;
   x06; x2c; x02; x15]%byte.

(** Three sectors: header, timestamps and one data sector.  The header
    entry of chunk (5, 9), at byte 4 * (5 + 9 * 32) = 1172, points to
    sector 2, one sector long; every other entry is zero. *)
Definition one_chunk (rec : Py.bytes) : Py.bytes :=
  put 8192 rec (put 1172 [x00; x00; x02; x01]%byte (repeat x00 (Z.to_nat 12288))).

(** The record of chunk (5, 9) under several compression tags and declared
    lengths; 17 = 1 + 16 is the right length for [hello_z]. *)
Definition region_zlib : Py.bytes := one_chunk (chunk_record 17 x02 hello_z).
Definition region_gzip : Py.bytes := one_chunk (chunk_record 17 x01 hello_z).
Definition region_tag99 : Py.bytes := one_chunk (chunk_record 17 x63 hello_z).

(** A file cut right after the zlib stream, whose record declares 4096
    bytes. *)
Definition region_short : Py.bytes :=
  firstn (Z.to_nat 8213) (one_chunk (chunk_record 4096 x02 hello_z)).

(** A [Region] on the given bytes as [__init__] leaves it, and no call
    made yet. *)
Definition fresh (d : Py.bytes) : state entry :=
  mkState (mkRegion "r.0.0.mca" d []) [].

(** No file exists but [r.0.0.mca]. *)
Definition files (file_name : string) : option Py.bytes :=
  if String.eqb file_name "r.0.0.mca" then Some region_zlib else None.

End Sample.

(** ** Facts about [bytes] *)

Module PyFacts.

Lemma byte_val_range (b : byte) : 0 <= Py.byte_val b < 256.
Proof.
  unfold Py.byte_val. pose proof (Byte.to_N_bounded b) as H.
  lia.
Qed.

Lemma byte_val_of (v : Z) : Py.byte_val (Py.byte_of v) = v mod 256.
Proof.
  unfold Py.byte_val, Py.byte_of.
  pose proof (Z.mod_pos_bound v 256 ltac:(lia)) as Hv.
  destruct (Byte.of_N (Z.to_N (v mod 256))) as [b|] eqn:E.
  - apply Byte.to_of_N in E. rewrite E. lia.
  - apply Byte.of_N_None_iff in E. lia.
Qed.

Lemma from_bytes_big_3 (a b c : byte) :
  Py.from_bytes_big [a; b; c]
  = 65536 * Py.byte_val a + 256 * Py.byte_val b + Py.byte_val c.
Proof. unfold Py.from_bytes_big. cbn [fold_left]. lia. Qed.

Lemma from_to_bytes_big4 (n : Z) :
  0 <= n < 4294967296 -> Py.from_bytes_big (Py.to_bytes_big4 n) = n.
Proof.
  intros Hn. unfold Py.from_bytes_big, Py.to_bytes_big4.
  cbn [fold_left]. rewrite !byte_val_of.
  replace (n / 65536) with (n / 256 / 256) by (rewrite Z.div_div by lia; reflexivity).
  replace (n / 16777216) with (n / 256 / 256 / 256)
    by (rewrite !Z.div_div by lia; reflexivity).
  pose proof (Z.div_mod n 256 ltac:(lia)) as E0.
  pose proof (Z.div_mod (n / 256) 256 ltac:(lia)) as E1.
  pose proof (Z.div_mod (n / 256 / 256) 256 ltac:(lia)) as E2.
  assert (0 <= n / 256 / 256 / 256 < 256) as Hc.
  { split.
    - repeat apply Z.div_pos; lia.
    - repeat (apply Z.div_lt_upper_bound; [lia|]). lia. }
  rewrite (Z.mod_small _ _ Hc). lia.
Qed.

Lemma len_nonneg (s : Py.bytes) : 0 <= Py.len s.
Proof. unfold Py.len. lia. Qed.

Lemma len_app (s t : Py.bytes) : Py.len (s ++ t) = Py.len s + Py.len t.
Proof. unfold Py.len. rewrite length_app. lia. Qed.

(** Indexing inside the object. *)
Lemma getitem_nth (s : Py.bytes) (i : Z) (b : byte) :
  0 <= i -> nth_error s (Z.to_nat i) = Some b ->
  Py.getitem s i = Some (Py.byte_val b).
Proof.
  intros Hi Hb. unfold Py.getitem.
  assert (Z.to_nat i < List.length s)%nat as Hlt
    by (apply nth_error_Some; congruence).
  unfold Py.len.
  destruct (i <? 0) eqn:E; [lia|].
  destruct ((i <? 0) || (Z.of_nat (List.length s) <=? i)) eqn:E2.
  - apply orb_true_iff in E2. destruct E2; lia.
  - rewrite Hb. reflexivity.
Qed.

Lemma getitem_inv (s : Py.bytes) (i v : Z) :
  0 <= i -> Py.getitem s i = Some v ->
  i < Py.len s /\ exists b, nth_error s (Z.to_nat i) = Some b /\ v = Py.byte_val b.
Proof.
  intros Hi. unfold Py.getitem.
  destruct (i <? 0) eqn:E; [lia|]. rewrite E. cbn [orb].
  destruct (Py.len s <=? i) eqn:E2; [discriminate|].
  destruct (nth_error s (Z.to_nat i)) as [b|]; [|discriminate].
  cbn [option_map]. intros [= <-]. split; [lia|]. now exists b.
Qed.

Lemma getitem_past_end (s : Py.bytes) (i : Z) :
  Py.len s <= i -> Py.getitem s i = None.
Proof.
  intros Hi. unfold Py.getitem. pose proof (len_nonneg s).
  destruct (i <? 0) eqn:E; [lia|]. rewrite E. cbn [orb].
  destruct (Py.len s <=? i) eqn:E2; [reflexivity|lia].
Qed.

(** Slicing with bounds that are not negative. *)
Lemma slice_nonneg (s : Py.bytes) (a b : Z) :
  0 <= a -> 0 <= b ->
  Py.slice s a b
  = firstn (Z.to_nat (Z.min b (Py.len s) - Z.min a (Py.len s)))
      (skipn (Z.to_nat (Z.min a (Py.len s))) s).
Proof.
  intros Ha Hb. unfold Py.slice, Py.clamp.
  destruct (a <? 0) eqn:Ea; [lia|].
  destruct (b <? 0) eqn:Eb; [lia|]. reflexivity.
Qed.

Lemma slice_app (pre mid post : Py.bytes) (a : Z) :
  Py.len pre = a ->
  Py.slice (pre ++ mid ++ post) a (a + Py.len mid) = mid.
Proof.
  intros Ha. pose proof (len_nonneg pre). pose proof (len_nonneg mid).
  pose proof (len_nonneg post).
  rewrite slice_nonneg by lia. rewrite !len_app.
  rewrite (Z.min_l a) by lia.
  rewrite (Z.min_l (a + Py.len mid)) by lia.
  replace (Z.to_nat a) with (List.length pre) by (unfold Py.len in Ha; lia).
  rewrite skipn_app, skipn_all, Nat.sub_diag. cbn [skipn app].
  replace (Z.to_nat (a + Py.len mid - a)) with (List.length mid)
    by (unfold Py.len; lia).
  rewrite firstn_app, firstn_all, Nat.sub_diag. cbn [firstn].
  apply app_nil_r.
Qed.

Lemma slice_past_end (s : Py.bytes) (a b : Z) :
  0 <= a <= Py.len s -> Py.len s <= b ->
  Py.slice s a b = skipn (Z.to_nat a) s.
Proof.
  intros Ha Hb. rewrite slice_nonneg by lia.
  rewrite (Z.min_l a) by lia. rewrite (Z.min_r b) by lia.
  apply firstn_all2. rewrite length_skipn. unfold Py.len. lia.
Qed.

(** A run of bytes known position by position. *)
Lemma slice_of_nth (s run : Py.bytes) (a : Z) :
  0 <= a ->
  (forall k, (k < List.length run)%nat ->
             nth_error s (Z.to_nat a + k) = nth_error run k) ->
  Py.slice s a (a + Py.len run) = run.
Proof.
  intros Ha Hrun.
  destruct run as [|r0 run0] eqn:Erun.
  { rewrite slice_nonneg by (cbn; lia). cbn [Py.len List.length Z.of_nat].
    rewrite Z.add_0_r, Z.sub_diag. reflexivity. }
  rewrite <- Erun in *. assert (run <> []) as Hne by (rewrite Erun; discriminate).
  clear Erun r0 run0.
  assert (exists post, s = firstn (Z.to_nat a) s ++ run ++ post
                       /\ List.length (firstn (Z.to_nat a) s) = Z.to_nat a)
    as (post & Hs & Hlen).
  { revert s Hrun. generalize (Z.to_nat a) as n. clear a Ha.
    induction n as [|n IH]; intros s Hrun.
    - cbn [firstn app List.length]. cbn [Nat.add] in Hrun. clear Hne.
      revert s Hrun. induction run as [|r run IHr]; intros s Hrun.
      + exists s. now split.
      + destruct s as [|x s].
        * specialize (Hrun 0%nat ltac:(cbn; lia)). discriminate.
        * pose proof (Hrun 0%nat ltac:(cbn; lia)) as H0. cbn in H0.
          injection H0 as ->.
          destruct (IHr s) as (post & Hp & _).
          { intros k Hk. apply (Hrun (S k)). cbn. lia. }
          exists post. split; [|reflexivity].
          cbn [firstn app] in Hp |- *. now rewrite <- Hp.
    - destruct s as [|x s].
      + destruct run as [|r run]; [congruence|].
        specialize (Hrun 0%nat ltac:(cbn; lia)).
        rewrite Nat.add_0_r in Hrun. discriminate.
      + destruct (IH s) as (post & Hp & Hl).
        { intros k Hk. apply (Hrun k Hk). }
        exists post. cbn [firstn app List.length].
        split; [now rewrite <- Hp | now rewrite Hl]. }
  rewrite Hs at 1. apply slice_app. unfold Py.len. lia.
Qed.

End PyFacts.

(** ** The header table *)

Lemma header_offset_range (x z : Z) : 0 <= header_offset x z <= 4092.
Proof.
  unfold header_offset.
  pose proof (Z.mod_pos_bound x 32 ltac:(lia)).
  pose proof (Z.mod_pos_bound z 32 ltac:(lia)).
  lia.
Qed.

(** C3: shifting either coordinate by 32 leaves [header_offset] unchanged;
    the offset lies in [0, 4092] and is a multiple of 4; each coordinate
    enters through its floored remainder modulo 32, the representative in
    [0, 31] of its class, also when the coordinate is negative. *)
Theorem header_offset_periodic (x z : Z) :
  header_offset x z = header_offset (x + 32) z
  /\ header_offset x z = header_offset x (z + 32)
  /\ 0 <= header_offset x z <= 4092
  /\ header_offset x z mod 4 = 0
  /\ exists qx qz nx nz,
       x = 32 * qx + nx /\ z = 32 * qz + nz
       /\ 0 <= nx <= 31 /\ 0 <= nz <= 31
       /\ header_offset x z = 4 * (nx + nz * 32).
Proof.
  repeat split.
  - unfold header_offset.
    replace (x + 32) with (x + 1 * 32) by lia. now rewrite Z.mod_add by lia.
  - unfold header_offset.
    replace (z + 32) with (z + 1 * 32) by lia. now rewrite Z.mod_add by lia.
  - apply header_offset_range.
  - apply header_offset_range.
  - unfold header_offset. rewrite Z.mul_comm. apply Z.mod_mul. lia.
  - exists (x / 32), (z / 32), (x mod 32), (z mod 32).
    pose proof (Z.mod_pos_bound x 32 ltac:(lia)).
    pose proof (Z.mod_pos_bound z 32 ltac:(lia)).
    repeat split; try lia; apply Z.div_mod; lia.
Qed.

(** C4: on the 32 x 32 representative coordinates [header_offset] is
    injective. *)
Theorem header_offset_injective (x1 z1 x2 z2 : Z) :
  0 <= x1 <= 31 -> 0 <= z1 <= 31 -> 0 <= x2 <= 31 -> 0 <= z2 <= 31 ->
  header_offset x1 z1 = header_offset x2 z2 ->
  (x1, z1) = (x2, z2).
Proof.
  intros Hx1 Hz1 Hx2 Hz2. unfold header_offset.
  rewrite !Z.mod_small by lia. intros H.
  assert (x1 = x2 /\ z1 = z2) as [-> ->] by lia. reflexivity.
Qed.

Section Facts.

Context {nbt_t chunk_t : Type}.
Variable zlib_decompress : Py.bytes -> option Py.bytes.
Variable NBTFile : Py.bytes -> option nbt_t.
Variable Chunk : option nbt_t -> option chunk_t.

Implicit Type st : state chunk_t.

(** *** [chunk_location] *)

Lemma chunk_location_state (x z : Z) st :
  snd (chunk_location x z st) = st.
Proof.
  unfold chunk_location, bind, self_data, index, ret, raise.
  destruct (Py.getitem _ _); reflexivity.
Qed.

(** The entry read from four known bytes. *)
Lemma chunk_location_entry (x z : Z) st (b0 b1 b2 b3 : byte) :
  let d := data (self st) in
  let h := header_offset x z in
  nth_error d (Z.to_nat h) = Some b0 ->
  nth_error d (Z.to_nat (h + 1)) = Some b1 ->
  nth_error d (Z.to_nat (h + 2)) = Some b2 ->
  nth_error d (Z.to_nat (h + 3)) = Some b3 ->
  chunk_location x z st
  = (Ok (65536 * Py.byte_val b0 + 256 * Py.byte_val b1 + Py.byte_val b2,
         Py.byte_val b3), st).
Proof.
  intros d h H0 H1 H2 H3.
  pose proof (header_offset_range x z) as Hh. fold h in Hh.
  unfold chunk_location, bind, self_data, index. fold h. fold d.
  rewrite (@PyFacts.getitem_nth d (h + 3) b3) by (lia || assumption).
  unfold ret. repeat f_equal.
  replace (h + 3) with (h + Py.len [b0; b1; b2]) by reflexivity.
  rewrite PyFacts.slice_of_nth.
  - apply PyFacts.from_bytes_big_3.
  - lia.
  - intros k Hk. cbn [List.length] in Hk.
    destruct k as [|[|[|k]]]; [| | |lia]; cbn [nth_error].
    + now rewrite Nat.add_0_r.
    + replace (Z.to_nat h + 1)%nat with (Z.to_nat (h + 1)) by lia. assumption.
    + replace (Z.to_nat h + 2)%nat with (Z.to_nat (h + 2)) by lia. assumption.
Qed.

(** C5: when the buffer holds the two header sectors, [chunk_location]
    returns the 3-byte big-endian number at [header_offset] paired with the
    byte at [header_offset + 3], and returns normally; four zero bytes give
    the pair [(0, 0)] as an ordinary return value. *)
Theorem chunk_location_reads_header (x z : Z) st :
  8192 <= Py.len (data (self st)) ->
  exists b0 b1 b2 b3 : byte,
    nth_error (data (self st)) (Z.to_nat (header_offset x z)) = Some b0
    /\ nth_error (data (self st)) (Z.to_nat (header_offset x z + 1)) = Some b1
    /\ nth_error (data (self st)) (Z.to_nat (header_offset x z + 2)) = Some b2
    /\ nth_error (data (self st)) (Z.to_nat (header_offset x z + 3)) = Some b3
    /\ chunk_location x z st
       = (Ok (65536 * Py.byte_val b0 + 256 * Py.byte_val b1 + Py.byte_val b2,
              Py.byte_val b3), st)
    /\ (b0 = x00 -> b1 = x00 -> b2 = x00 -> b3 = x00 ->
        chunk_location x z st = (Ok (0, 0), st)).
Proof.
  intros Hlen. pose proof (header_offset_range x z) as Hh.
  set (d := data (self st)) in *. set (h := header_offset x z) in *.
  assert (forall i, 0 <= i <= 3 -> exists b, nth_error d (Z.to_nat (h + i)) = Some b)
    as Hex.
  { intros i Hi. destruct (nth_error d (Z.to_nat (h + i))) as [b|] eqn:E.
    - now exists b.
    - apply nth_error_None in E. unfold Py.len in Hlen. lia. }
  destruct (Hex 0 ltac:(lia)) as [b0 H0]. rewrite Z.add_0_r in H0.
  destruct (Hex 1 ltac:(lia)) as [b1 H1].
  destruct (Hex 2 ltac:(lia)) as [b2 H2].
  destruct (Hex 3 ltac:(lia)) as [b3 H3].
  exists b0, b1, b2, b3.
  pose proof (chunk_location_entry x z st H0 H1 H2 H3) as Hloc.
  repeat split; try assumption.
  intros -> -> -> ->. exact Hloc.
Qed.

(** *** [chunk_data] *)

Lemma is_zero_pair_true (p : Z * Z) : is_zero_pair p = true <-> p = (0, 0).
Proof.
  destruct p as [a b]. unfold is_zero_pair. cbn [fst snd].
  rewrite andb_true_iff, !Z.eqb_eq. split.
  - now intros [-> ->].
  - now intros [= -> ->].
Qed.

Lemma is_zero_pair_false (p : Z * Z) : p <> (0, 0) -> is_zero_pair p = false.
Proof.
  intros Hp. destruct (is_zero_pair p) eqn:E; [|reflexivity].
  now apply is_zero_pair_true in E.
Qed.

Lemma from_bytes_big_nonneg (s : Py.bytes) : 0 <= Py.from_bytes_big s.
Proof.
  unfold Py.from_bytes_big.
  assert (forall acc, 0 <= acc ->
            0 <= fold_left (fun a b => a * 256 + Py.byte_val b) s acc) as H.
  { induction s as [|b s IH]; intros acc Hacc; cbn [fold_left]; [assumption|].
    apply IH. pose proof (PyFacts.byte_val_range b). lia. }
  apply H. lia.
Qed.

Lemma chunk_location_nonneg (x z : Z) st (loc : Z * Z) :
  fst (chunk_location x z st) = Ok loc -> 0 <= fst loc.
Proof.
  unfold chunk_location, bind, self_data, index, ret, raise.
  destruct (Py.getitem _ _); cbn [fst]; [|discriminate].
  intros [= <-]. cbn [fst]. apply from_bytes_big_nonneg.
Qed.

Lemma chunk_data_steps (x z : Z) st :
  chunk_data zlib_decompress NBTFile x z st
  = match fst (chunk_location x z st) with
    | Ok loc => after_location zlib_decompress NBTFile st loc
    | Raise e => (Raise e, st)
    end.
Proof.
  unfold chunk_data, bind at 1.
  pose proof (chunk_location_state x z st) as Hst.
  destruct (chunk_location x z st) as [[loc|e] st']; cbn [fst snd] in *;
    subst st'; [|reflexivity].
  unfold after_location.
  destruct (is_zero_pair loc); [reflexivity|].
  unfold bind, self_data, index, ret, raise.
  destruct (Py.getitem _ _) as [c|]; [|reflexivity].
  destruct (c =? 1); [reflexivity|].
  unfold call_zlib_decompress, inflate_result, parse_result, call_NBTFile.
  destruct (zlib_decompress _) as [p|]; [|reflexivity].
  destruct (NBTFile p); reflexivity.
Qed.

(** [chunk_data] leaves the object alone and only ever adds to the trace. *)
Lemma chunk_data_state (x z : Z) st :
  self (snd (chunk_data zlib_decompress NBTFile x z st)) = self st
  /\ exists calls,
       inflated (snd (chunk_data zlib_decompress NBTFile x z st))
       = inflated st ++ calls.
Proof.
  rewrite chunk_data_steps.
  destruct (fst (chunk_location x z st)) as [loc|e];
    [|split; [reflexivity | exists []; now rewrite app_nil_r]].
  unfold after_location.
  destruct (is_zero_pair loc);
    [split; [reflexivity | exists []; now rewrite app_nil_r]|].
  destruct (Py.getitem _ _) as [c|];
    [|split; [reflexivity | exists []; now rewrite app_nil_r]].
  destruct (c =? 1);
    [split; [reflexivity | exists []; now rewrite app_nil_r]|].
  cbn [snd self inflated]. split; [reflexivity|]. eexists. reflexivity.
Qed.

(** The header entry depends on the first sector only. *)
Lemma chunk_location_header_only (x z : Z) st st' :
  firstn 4096 (data (self st')) = firstn 4096 (data (self st)) ->
  fst (chunk_location x z st') = fst (chunk_location x z st).
Proof.
  intros Hhead. pose proof (header_offset_range x z) as Hh.
  assert (forall i, 0 <= i <= 3 ->
            nth_error (data (self st')) (Z.to_nat (header_offset x z + i))
            = nth_error (data (self st)) (Z.to_nat (header_offset x z + i)))
    as Hsame.
  { intros i Hi.
    assert (nth_error (firstn 4096 (data (self st'))) (Z.to_nat (header_offset x z + i))
            = nth_error (firstn 4096 (data (self st))) (Z.to_nat (header_offset x z + i)))
      as E by now rewrite Hhead.
    rewrite !nth_error_firstn in E.
    destruct (Nat.ltb_spec (Z.to_nat (header_offset x z + i)) 4096); [assumption|lia]. }
  destruct (nth_error (data (self st)) (Z.to_nat (header_offset x z + 3)))
    as [b3|] eqn:E3.
  - assert (forall i, 0 <= i <= 3 -> exists b,
              nth_error (data (self st)) (Z.to_nat (header_offset x z + i)) = Some b)
      as Hex.
    { intros i Hi.
      destruct (nth_error (data (self st)) (Z.to_nat (header_offset x z + i)))
        as [b|] eqn:E; [now exists b|].
      apply nth_error_None in E.
      assert (nth_error (data (self st)) (Z.to_nat (header_offset x z + 3)) <> None)
        as Hn by congruence.
      apply nth_error_Some in Hn. lia. }
    destruct (Hex 0 ltac:(lia)) as [b0 H0].
    destruct (Hex 1 ltac:(lia)) as [b1 H1].
    destruct (Hex 2 ltac:(lia)) as [b2 H2].
    pose proof (Hsame 0 ltac:(lia)) as S0. pose proof (Hsame 1 ltac:(lia)) as S1.
    pose proof (Hsame 2 ltac:(lia)) as S2. pose proof (Hsame 3 ltac:(lia)) as S3.
    rewrite H0 in S0. rewrite H1 in S1. rewrite H2 in S2. rewrite E3 in S3.
    rewrite Z.add_0_r in H0, S0.
    rewrite (chunk_location_entry x z st H0 H1 H2 E3).
    rewrite (chunk_location_entry x z st' S0 S1 S2 S3). reflexivity.
  - pose proof (Hsame 3 ltac:(lia)) as S3. rewrite E3 in S3.
    apply nth_error_None in E3, S3.
    unfold chunk_location, bind, self_data, index.
    rewrite !PyFacts.getitem_past_end by (unfold Py.len; lia).
    reflexivity.
Qed.

(** C6: when the four bytes of the header entry are zero, [chunk_data]
    returns [None] (the chunk is absent) and raises nothing; the object and
    the trace are untouched, and the same holds on every buffer that agrees
    with this one on the header sector, whatever lies beyond it. *)
Theorem chunk_data_absent (x z : Z) st :
  (forall i, 0 <= i <= 3 ->
     nth_error (data (self st)) (Z.to_nat (header_offset x z + i)) = Some x00) ->
  fst (chunk_location x z st) = Ok (0, 0)
  /\ chunk_data zlib_decompress NBTFile x z st = (Ok None, st)
  /\ forall st',
       firstn 4096 (data (self st')) = firstn 4096 (data (self st)) ->
       chunk_data zlib_decompress NBTFile x z st' = (Ok None, st').
Proof.
  intros Hzero.
  assert (fst (chunk_location x z st) = Ok (0, 0)) as Hloc.
  { pose proof (Hzero 0 ltac:(lia)) as H0. rewrite Z.add_0_r in H0.
    rewrite (chunk_location_entry x z st H0
               (Hzero 1 ltac:(lia)) (Hzero 2 ltac:(lia)) (Hzero 3 ltac:(lia))).
    reflexivity. }
  split; [assumption|]. split.
  - rewrite chunk_data_steps, Hloc. reflexivity.
  - intros st' Hhead.
    rewrite chunk_data_steps, (chunk_location_header_only x z st st' Hhead), Hloc.
    reflexivity.
Qed.

(** C2: a chunk with a non-zero header entry whose tag byte is 1 makes
    [chunk_data] raise [GZipChunkData]; nothing was handed to
    [zlib.decompress] on the way. *)
Theorem chunk_data_gzip (x z : Z) st (loc : Z * Z) :
  fst (chunk_location x z st) = Ok loc ->
  loc <> (0, 0) ->
  Py.getitem (data (self st)) (fst loc * 4096 + 4) = Some 1 ->
  chunk_data zlib_decompress NBTFile x z st
  = (Raise (GZipChunkData "GZip is not supported"), st)
  /\ inflated (snd (chunk_data zlib_decompress NBTFile x z st)) = inflated st.
Proof.
  intros Hloc Hnz Htag.
  assert (chunk_data zlib_decompress NBTFile x z st
          = (Raise (GZipChunkData "GZip is not supported"), st)) as E.
  { rewrite chunk_data_steps, Hloc. unfold after_location.
    rewrite (is_zero_pair_false Hnz), Htag. reflexivity. }
  split; [exact E | now rewrite E].
Qed.

(** The path of every tag other than 1. *)
Lemma chunk_data_inflates (x z : Z) st (loc : Z * Z) (c : Z) :
  fst (chunk_location x z st) = Ok loc ->
  loc <> (0, 0) ->
  Py.getitem (data (self st)) (fst loc * 4096 + 4) = Some c ->
  c <> 1 ->
  let d := data (self st) in
  let off := fst loc * 4096 in
  let L := Py.from_bytes_big (Py.slice d off (off + 4)) in
  let s := Py.slice d (off + 5) (off + 5 + L - 1) in
  chunk_data zlib_decompress NBTFile x z st
  = (inflate_result zlib_decompress NBTFile s,
     mkState (self st) (inflated st ++ [s])).
Proof.
  intros Hloc Hnz Htag Hc. cbv zeta.
  rewrite chunk_data_steps, Hloc. unfold after_location.
  rewrite (is_zero_pair_false Hnz), Htag.
  destruct (Z.eqb_spec c 1); [contradiction|]. reflexivity.
Qed.

(** C1, as the code has it: a tag that is neither 1 nor 2 is not rejected.
    [chunk_data] slices the [L - 1] payload bytes as it does for tag 2 and
    hands them to [zlib.decompress]; what it returns or raises is what
    [zlib] and the NBT decoder make of them. *)
Theorem chunk_data_unknown_tag (x z : Z) st (loc : Z * Z) (c : Z) :
  fst (chunk_location x z st) = Ok loc ->
  loc <> (0, 0) ->
  Py.getitem (data (self st)) (fst loc * 4096 + 4) = Some c ->
  c <> 1 -> c <> 2 ->
  let d := data (self st) in
  let off := fst loc * 4096 in
  let L := Py.from_bytes_big (Py.slice d off (off + 4)) in
  let s := Py.slice d (off + 5) (off + 5 + L - 1) in
  chunk_data zlib_decompress NBTFile x z st
  = (inflate_result zlib_decompress NBTFile s,
     mkState (self st) (inflated st ++ [s])).
Proof.
  intros Hloc Hnz Htag Hc1 _. now apply chunk_data_inflates with (c := c).
Qed.

(** C7: let the buffer hold, at byte [sector_offset * 4096], a record made
    of the big-endian length [L = 1 + len C], the tag 2 and the bytes [C],
    where [C] is a zlib stream of the plaintext [P], and let the header
    entry of the chunk point there.  Then [chunk_data] passes exactly [C]
    to [zlib.decompress], and the plaintext [P] it gets back is what it
    wraps in [nbt.NBTFile] and returns. *)
Theorem chunk_data_round_trip (x z : Z) st (loc : Z * Z)
    (pre post C P : Py.bytes) :
  fst (chunk_location x z st) = Ok loc ->
  loc <> (0, 0) ->
  data (self st) = pre ++ chunk_record (1 + Py.len C) x02 C ++ post ->
  Py.len pre = fst loc * 4096 ->
  1 + Py.len C < 4294967296 ->
  zlib_decompress C = Some P ->
  chunk_data zlib_decompress NBTFile x z st
  = (parse_result NBTFile P, mkState (self st) (inflated st ++ [C])).
Proof.
  intros Hloc Hnz Hdata Hpre HL HP.
  pose proof (PyFacts.len_nonneg C) as HC.
  pose proof (PyFacts.len_nonneg pre) as Hoff. rewrite Hpre in Hoff.
  set (off := fst loc * 4096) in *.
  set (d := data (self st)) in *.
  assert (Py.slice d off (off + 4) = Py.to_bytes_big4 (1 + Py.len C)) as Hlen.
  { rewrite Hdata. unfold chunk_record. rewrite <- app_assoc.
    now apply (PyFacts.slice_app pre (Py.to_bytes_big4 (1 + Py.len C))). }
  assert (Py.getitem d (off + 4) = Some 2) as Htag.
  { apply (@PyFacts.getitem_nth d (off + 4) x02); [lia|].
    rewrite Hdata. unfold chunk_record.
    rewrite nth_error_app2 by (unfold Py.len in Hpre; lia).
    replace (Z.to_nat (off + 4) - List.length pre)%nat with 4%nat
      by (unfold Py.len in Hpre; lia).
    reflexivity. }
  assert (Py.slice d (off + 5) (off + 5 + Py.len C) = C) as Hpay.
  { rewrite Hdata. unfold chunk_record, Py.to_bytes_big4.
    set (hd := pre ++ [Py.byte_of ((1 + Py.len C) / 16777216);
                       Py.byte_of ((1 + Py.len C) / 65536);
                       Py.byte_of ((1 + Py.len C) / 256);
                       Py.byte_of (1 + Py.len C); x02]).
    replace (pre ++ ([_; _; _; _] ++ [x02] ++ C) ++ post) with (hd ++ C ++ post)
      by (unfold hd; rewrite <- !app_assoc; reflexivity).
    apply PyFacts.slice_app. unfold hd. rewrite PyFacts.len_app, Hpre.
    reflexivity. }
  rewrite (chunk_data_inflates x z st Hloc Hnz Htag) by lia.
  fold d. fold off. rewrite Hlen, PyFacts.from_to_bytes_big4 by lia.
  replace (off + 5 + (1 + Py.len C) - 1) with (off + 5 + Py.len C) by lia.
  rewrite Hpay. unfold inflate_result. now rewrite HP.
Qed.

(** C8, as the code has it: a declared length [L] that reaches past the end
    of the buffer is not detected.  With the tag byte inside the buffer and
    not 1, the slice is clipped to the bytes that remain after the tag, and
    these are handed to [zlib.decompress], which decides the outcome. *)
Theorem chunk_data_clips_declared_length (x z : Z) st (loc : Z * Z) (c : Z) :
  let d := data (self st) in
  let off := fst loc * 4096 in
  let L := Py.from_bytes_big (Py.slice d off (off + 4)) in
  fst (chunk_location x z st) = Ok loc ->
  loc <> (0, 0) ->
  Py.getitem d (off + 4) = Some c ->
  c <> 1 ->
  Py.len d < off + 4 + L ->
  let s := skipn (Z.to_nat (off + 5)) d in
  chunk_data zlib_decompress NBTFile x z st
  = (inflate_result zlib_decompress NBTFile s,
     mkState (self st) (inflated st ++ [s])).
Proof.
  intros d off L Hloc Hnz Htag Hc Hpast s.
  pose proof (chunk_location_nonneg x z st Hloc) as Hoff.
  destruct (@PyFacts.getitem_inv d (off + 4) c ltac:(unfold off; lia) Htag)
    as [Hin _].
  rewrite (chunk_data_inflates x z st Hloc Hnz Htag Hc).
  fold d. fold off. fold L.
  rewrite (@PyFacts.slice_past_end d (off + 5) (off + 5 + L - 1))
    by (unfold off in *; lia).
  reflexivity.
Qed.

(** *** [get_chunk] and [load] *)

Lemma get_chunk_unfold (x z : Z) st :
  get_chunk zlib_decompress NBTFile Chunk x z st
  = match fst (chunk_data zlib_decompress NBTFile x z st) with
    | Ok t =>
        (match Chunk t with Some c => Ok c | None => Raise ChunkError end,
         snd (chunk_data zlib_decompress NBTFile x z st))
    | Raise e => (Raise e, snd (chunk_data zlib_decompress NBTFile x z st))
    end.
Proof.
  unfold get_chunk, bind, call_Chunk, ret, raise.
  destruct (chunk_data zlib_decompress NBTFile x z st) as [[t|e] st'];
    cbn [fst snd]; [|reflexivity].
  destruct (Chunk t); reflexivity.
Qed.

Lemma get_chunk_self (x z : Z) st : self (snd (get_chunk zlib_decompress NBTFile Chunk x z st)) = self st.
Proof.
  rewrite get_chunk_unfold.
  destruct (chunk_data_state x z st) as [Hself _].
  destruct (fst (chunk_data zlib_decompress NBTFile x z st)); exact Hself.
Qed.

(** The value a retrieval returns is a function of the file bytes. *)
Lemma chunk_data_data_only (x z : Z) st st' :
  data (self st) = data (self st') ->
  fst (chunk_data zlib_decompress NBTFile x z st)
  = fst (chunk_data zlib_decompress NBTFile x z st').
Proof.
  intros Hd. rewrite !chunk_data_steps.
  rewrite (chunk_location_header_only x z st' st) by now rewrite Hd.
  destruct (fst (chunk_location x z st')) as [loc|e]; [|reflexivity].
  unfold after_location. rewrite Hd.
  destruct (is_zero_pair loc); [reflexivity|].
  destruct (Py.getitem _ _) as [c|]; [|reflexivity].
  destruct (c =? 1); reflexivity.
Qed.

Lemma get_chunk_data_only (x z : Z) st st' :
  data (self st) = data (self st') ->
  fst (get_chunk zlib_decompress NBTFile Chunk x z st) = fst (get_chunk zlib_decompress NBTFile Chunk x z st').
Proof.
  intros Hd. rewrite !get_chunk_unfold.
  rewrite (chunk_data_data_only x z st st' Hd).
  destruct (fst (chunk_data zlib_decompress NBTFile x z st')); reflexivity.
Qed.

(** Loops. *)
Lemma for_ext {A} (xs : list A) (f g : A -> M chunk_t unit) :
  (forall x st, f x st = g x st) -> forall st, for_ xs f st = for_ xs g st.
Proof.
  intros Hfg. induction xs as [|x xs IH]; intros st; [reflexivity|].
  cbn [for_]. unfold bind. rewrite Hfg.
  destruct (g x st) as [[u|e] st1]; [apply IH | reflexivity].
Qed.

Lemma for_app {A} (xs ys : list A) (f : A -> M chunk_t unit) st :
  for_ (xs ++ ys) f st = bind (for_ xs f) (fun _ => for_ ys f) st.
Proof.
  revert st. induction xs as [|x xs IH]; intros st; [reflexivity|].
  cbn [for_ app]. unfold bind.
  destruct (f x st) as [[u|e] st1]; [|reflexivity].
  rewrite IH. reflexivity.
Qed.

Lemma for_map {A B} (g : A -> B) (xs : list A) (f : B -> M chunk_t unit) st :
  for_ (map g xs) f st = for_ xs (fun x => f (g x)) st.
Proof.
  revert st. induction xs as [|x xs IH]; intros st; [reflexivity|].
  cbn [for_ map]. unfold bind.
  destruct (f (g x) st) as [[u|e] st1]; [apply IH | reflexivity].
Qed.

Lemma for_nested {A B} (xs : list A) (g : A -> list B)
    (f : B -> M chunk_t unit) st :
  for_ xs (fun x => for_ (g x) f) st = for_ (flat_map g xs) f st.
Proof.
  revert st. induction xs as [|x xs IH]; intros st; [reflexivity|].
  cbn [for_ flat_map]. rewrite for_app. unfold bind.
  destruct (for_ (g x) f st) as [[u|e] st1]; [apply IH | reflexivity].
Qed.

(** [load] is one loop over [coords]. *)
Lemma load_as_sweep st :
  load zlib_decompress NBTFile Chunk st = for_ coords (load_step zlib_decompress NBTFile Chunk) st.
Proof.
  unfold load, coords. rewrite <- for_nested.
  apply for_ext. intros cx st1. rewrite for_map. reflexivity.
Qed.

Lemma load_step_unfold (p : Z * Z) st :
  load_step zlib_decompress NBTFile Chunk p st
  = match fst (get_chunk zlib_decompress NBTFile Chunk (fst p) (snd p) st) with
    | Ok c =>
        (Ok tt,
         mkState (mkRegion (name (self st)) (data (self st)) (chunks (self st) ++ [c]))
           (inflated (snd (get_chunk zlib_decompress NBTFile Chunk (fst p) (snd p) st))))
    | Raise e => (Raise e, snd (get_chunk zlib_decompress NBTFile Chunk (fst p) (snd p) st))
    end.
Proof.
  unfold load_step, bind, chunks_append.
  pose proof (get_chunk_self (fst p) (snd p) st) as Hself.
  destruct (get_chunk zlib_decompress NBTFile Chunk (fst p) (snd p) st) as [[c|e] st1];
    cbn [fst snd] in *; [|reflexivity].
  now rewrite Hself.
Qed.

(** What a sweep over any list of coordinates leaves behind: the entries
    of the coordinates it got through, in order, appended to the list. *)
Lemma sweep_spec (cs : list (Z * Z)) st0 : forall st,
  data (self st) = data (self st0) ->
  exists es,
    chunks (self (snd (for_ cs (load_step zlib_decompress NBTFile Chunk) st))) = chunks (self st) ++ es
    /\ name (self (snd (for_ cs (load_step zlib_decompress NBTFile Chunk) st))) = name (self st)
    /\ data (self (snd (for_ cs (load_step zlib_decompress NBTFile Chunk) st))) = data (self st)
    /\ Forall2 (fun p c => fst (get_chunk zlib_decompress NBTFile Chunk (fst p) (snd p) st0) = Ok c)
         (firstn (List.length es) cs) es
    /\ match fst (for_ cs (load_step zlib_decompress NBTFile Chunk) st) with
       | Ok _ => List.length es = List.length cs
       | Raise e =>
           exists p, nth_error cs (List.length es) = Some p
                     /\ fst (get_chunk zlib_decompress NBTFile Chunk (fst p) (snd p) st0) = Raise e
       end.
Proof.
  induction cs as [|p cs IH]; intros st Hd.
  - exists []. cbn. rewrite app_nil_r. repeat split. constructor.
  - cbn [for_]. unfold bind. rewrite load_step_unfold.
    pose proof (get_chunk_data_only (fst p) (snd p) st st0 Hd) as Hres.
    destruct (fst (get_chunk zlib_decompress NBTFile Chunk (fst p) (snd p) st)) as [c|e] eqn:E.
    + match goal with |- context [for_ cs _ ?s] => set (st1 := s) end.
      destruct (IH st1 Hd) as (es & Hch & Hn & Hdt & Hall & Hend).
      exists (c :: es). rewrite Hch, Hn, Hdt. cbn [self chunks name data st1].
      rewrite <- app_assoc. repeat split.
      * cbn [List.length firstn]. constructor; [now symmetry | exact Hall].
      * destruct (fst (for_ cs (load_step zlib_decompress NBTFile Chunk) st1)); cbn [List.length nth_error];
          [now rewrite Hend | exact Hend].
    + exists []. cbn [fst snd List.length firstn nth_error].
      rewrite app_nil_r, get_chunk_self. repeat split; [constructor|].
      exists p. split; [reflexivity | now symmetry].
Qed.

(** The order of the sweep. *)
Lemma coords_length : List.length coords = 1024%nat.
Proof. reflexivity. Qed.

Lemma coords_nth (x z : Z) :
  0 <= x <= 31 -> 0 <= z <= 31 ->
  nth_error coords (Z.to_nat (32 * x + z)) = Some (x, z).
Proof.
  intros Hx Hz.
  assert (forallb (fun i =>
            forallb (fun j =>
              match nth_error coords (Z.to_nat (32 * i + j)) with
              | Some (a, b) => (a =? i) && (b =? j)
              | None => false
              end) (Py.range 32)) (Py.range 32) = true) as Hall
    by (vm_compute; reflexivity).
  assert (forall v, 0 <= v <= 31 -> In v (Py.range 32)) as Hin.
  { intros v Hv. unfold Py.range. apply in_map_iff.
    exists (Z.to_nat v). split; [lia|]. apply in_seq. lia. }
  rewrite forallb_forall in Hall. specialize (Hall x (Hin x Hx)).
  rewrite forallb_forall in Hall. specialize (Hall z (Hin z Hz)).
  destruct (nth_error coords (Z.to_nat (32 * x + z))) as [[a b]|];
    [|discriminate].
  apply andb_true_iff in Hall. destruct Hall as [Ha Hb].
  apply Z.eqb_eq in Ha, Hb. now subst.
Qed.

Lemma Forall2_at {A B} (R : A -> B -> Prop) (xs : list A) (ys : list B) :
  Forall2 R xs ys ->
  forall k a, nth_error xs k = Some a ->
              exists b, nth_error ys k = Some b /\ R a b.
Proof.
  induction 1 as [|x y xs ys Hxy _ IH]; intros k a Hk.
  - destruct k; discriminate.
  - destruct k as [|k]; cbn [nth_error] in *.
    + injection Hk as <-. now exists y.
    + now apply IH.
Qed.

(** Nothing but a retrieval can make the sweep raise. *)
Lemma load_returns st :
  (forall x z, 0 <= x <= 31 -> 0 <= z <= 31 ->
     exists c, fst (get_chunk zlib_decompress NBTFile Chunk x z st) = Ok c) ->
  fst (load zlib_decompress NBTFile Chunk st) = Ok tt.
Proof.
  intros Hok.
  destruct (sweep_spec coords st st eq_refl) as (es & _ & _ & _ & _ & Hend).
  rewrite <- load_as_sweep in Hend.
  destruct (fst (load zlib_decompress NBTFile Chunk st)) as [[]|e];
    [reflexivity|].
  destruct Hend as ((x & z) & Hnth & Hraise). exfalso.
  assert (In (x, z) coords) as Hin by (eapply nth_error_In; eassumption).
  unfold coords in Hin. apply in_flat_map in Hin.
  destruct Hin as (cx & Hcx & Hin). apply in_map_iff in Hin.
  destruct Hin as (cz & [= <- <-] & Hcz).
  unfold Py.range in Hcx, Hcz. apply in_map_iff in Hcx, Hcz.
  destruct Hcx as (i & <- & Hi). destruct Hcz as (j & <- & Hj).
  apply in_seq in Hi, Hj.
  destruct (Hok (Z.of_nat i) (Z.of_nat j) ltac:(lia) ltac:(lia)) as [c Hc].
  cbn [fst snd] in Hraise. congruence.
Qed.

(** C9: when each of the 1024 retrievals returns, [load] returns and has
    appended exactly 1024 entries; the entry of [(x, z)] sits at position
    [32 * x + z], the order of an outer loop over [x] and an inner loop
    over [z], and is what [get_chunk x z] returns.  A chunk whose header
    entry is zero is not skipped: its entry is the value [anvil.Chunk]
    makes of [None] (an absent entry), and a chunk with a decoded tree [t]
    has the value made of [t] (a present entry).  So in a region where
    [(x0, z0)] is the only generated chunk, position [32 * x0 + z0] holds
    the one present entry and the 1023 other positions hold the absent
    one. *)
Theorem load_sweeps_every_coordinate st :
  (forall x z, 0 <= x <= 31 -> 0 <= z <= 31 ->
     exists c, fst (get_chunk zlib_decompress NBTFile Chunk x z st) = Ok c) ->
  exists es st',
    load zlib_decompress NBTFile Chunk st = (Ok tt, st')
    /\ chunks (self st') = chunks (self st) ++ es
    /\ List.length es = 1024%nat
    /\ (forall x z, 0 <= x <= 31 -> 0 <= z <= 31 ->
          exists c t,
            nth_error es (Z.to_nat (32 * x + z)) = Some c
            /\ fst (get_chunk zlib_decompress NBTFile Chunk x z st) = Ok c
            /\ fst (chunk_data zlib_decompress NBTFile x z st) = Ok t
            /\ Chunk t = Some c
            /\ (fst (chunk_location x z st) = Ok (0, 0) -> t = None))
    /\ (forall x0 z0 a c0,
          0 <= x0 <= 31 -> 0 <= z0 <= 31 ->
          Chunk None = Some a ->
          fst (get_chunk zlib_decompress NBTFile Chunk x0 z0 st) = Ok c0 ->
          (forall x z, 0 <= x <= 31 -> 0 <= z <= 31 -> (x, z) <> (x0, z0) ->
             fst (chunk_location x z st) = Ok (0, 0)) ->
          forall x z, 0 <= x <= 31 -> 0 <= z <= 31 ->
            nth_error es (Z.to_nat (32 * x + z))
            = Some (if (x =? x0) && (z =? z0) then c0 else a)).
Proof.
  intros Hok.
  destruct (sweep_spec coords st st eq_refl) as (es & Hch & _ & _ & Hall & Hend).
  rewrite <- load_as_sweep in Hch, Hend.
  pose proof (load_returns st Hok) as Hret.
  destruct (load zlib_decompress NBTFile Chunk st) as [[[]|e] st'] eqn:Eload;
    cbn [fst snd] in *; [|discriminate].
  rewrite Hend, coords_length in *.
  rewrite <- coords_length, firstn_all in Hall.
  assert (forall x z, 0 <= x <= 31 -> 0 <= z <= 31 ->
            exists c t,
              nth_error es (Z.to_nat (32 * x + z)) = Some c
              /\ fst (get_chunk zlib_decompress NBTFile Chunk x z st) = Ok c
              /\ fst (chunk_data zlib_decompress NBTFile x z st) = Ok t
              /\ Chunk t = Some c
              /\ (fst (chunk_location x z st) = Ok (0, 0) -> t = None))
    as Hentry.
  { intros x z Hx Hz.
    destruct (Forall2_at Hall _ (coords_nth Hx Hz)) as (c & Hnth & Hc).
    cbn [fst snd] in Hc. pose proof Hc as Hget.
    rewrite get_chunk_unfold in Hc.
    destruct (fst (chunk_data zlib_decompress NBTFile x z st)) as [t|e] eqn:Et;
      cbn [fst] in Hc; [|discriminate].
    destruct (Chunk t) as [c'|] eqn:Ect; [|discriminate].
    injection Hc as <-. exists c', t. repeat split; try assumption.
    intros Hloc. rewrite chunk_data_steps, Hloc in Et. cbn in Et. congruence. }
  exists es, st'. split; [reflexivity|].
  do 3 (split; [assumption|]).
  intros x0 z0 a c0 Hx0 Hz0 Ha Hc0 Hrest x z Hx Hz.
  destruct (Hentry x z Hx Hz) as (c & t & Hnth & Hget & Ht & Hct & Hnone).
  rewrite Hnth. f_equal.
  destruct (Z.eqb_spec x x0) as [->|Hne]; cbn [andb].
  - destruct (Z.eqb_spec z z0) as [->|Hne]; [congruence|].
    rewrite (Hnone (Hrest x0 z Hx Hz ltac:(congruence))) in Hct. congruence.
  - rewrite (Hnone (Hrest x z Hx Hz ltac:(congruence))) in Hct. congruence.
Qed.

(** One call of [load], whether it returns or raises. *)
Lemma load_frame st :
  exists es,
    chunks (self (snd (load zlib_decompress NBTFile Chunk st)))
    = chunks (self st) ++ es
    /\ name (self (snd (load zlib_decompress NBTFile Chunk st))) = name (self st)
    /\ data (self (snd (load zlib_decompress NBTFile Chunk st))) = data (self st)
    /\ match fst (load zlib_decompress NBTFile Chunk st) with
       | Ok _ => List.length es = 1024%nat
       | Raise _ => (List.length es < 1024)%nat
       end.
Proof.
  destruct (sweep_spec coords st st eq_refl) as (es & Hch & Hn & Hd & _ & Hend).
  rewrite <- load_as_sweep in Hch, Hn, Hd, Hend.
  exists es. do 3 (split; [assumption|]).
  destruct (fst (load zlib_decompress NBTFile Chunk st)); [exact Hend|].
  destruct Hend as (p & Hp & _). rewrite <- coords_length.
  apply nth_error_Some. congruence.
Qed.

Lemma load_times_frame (n : nat) : forall st,
  fst (load_times zlib_decompress NBTFile Chunk n st) = Ok tt ->
  List.length (chunks (self (snd (load_times zlib_decompress NBTFile Chunk n st))))
  = (List.length (chunks (self st)) + 1024 * n)%nat
  /\ name (self (snd (load_times zlib_decompress NBTFile Chunk n st))) = name (self st)
  /\ data (self (snd (load_times zlib_decompress NBTFile Chunk n st))) = data (self st).
Proof.
  induction n as [|n IH]; intros st Hok.
  - cbn. repeat split. lia.
  - cbn [load_times] in *. unfold bind in *.
    destruct (load_frame st) as (es & Hch & Hn & Hd & Hlen).
    destruct (load zlib_decompress NBTFile Chunk st) as [[u|e] st1];
      cbn [fst snd] in *; [|discriminate].
    destruct (IH st1 Hok) as (Hl & Hn1 & Hd1).
    rewrite Hl, Hn1, Hd1, Hch, Hn, Hd, length_app, Hlen.
    repeat split. lia.
Qed.

Lemma load_times_returns (n : nat) : forall st,
  (forall x z, 0 <= x <= 31 -> 0 <= z <= 31 ->
     exists c, fst (get_chunk zlib_decompress NBTFile Chunk x z st) = Ok c) ->
  fst (load_times zlib_decompress NBTFile Chunk n st) = Ok tt.
Proof.
  induction n as [|n IH]; intros st Hok; [reflexivity|].
  cbn [load_times]. unfold bind.
  pose proof (load_returns st Hok) as Hret.
  destruct (load_frame st) as (_ & _ & _ & Hd & _).
  destruct (load zlib_decompress NBTFile Chunk st) as [[u|e] st1];
    cbn [fst snd] in *; [|discriminate].
  apply IH. intros x z Hx Hz.
  rewrite (get_chunk_data_only x z st1 st Hd). now apply Hok.
Qed.

(** C10: a call of [load] appends to [chunks] and keeps what was there,
    1024 entries when it returns (fewer when a retrieval raises and ends
    the sweep), and leaves [name] and [data] as they were.  So [n] calls
    that return grow the list by [1024 * n], from the empty list that
    [__init__] sets to exactly [1024 * n] entries.  [chunk_location] and
    [chunk_data] change no field of the object. *)
Theorem load_appends_1024_each_call :
  (forall st, exists es,
     chunks (self (snd (load zlib_decompress NBTFile Chunk st)))
     = chunks (self st) ++ es
     /\ name (self (snd (load zlib_decompress NBTFile Chunk st))) = name (self st)
     /\ data (self (snd (load zlib_decompress NBTFile Chunk st))) = data (self st)
     /\ match fst (load zlib_decompress NBTFile Chunk st) with
        | Ok _ => List.length es = 1024%nat
        | Raise _ => (List.length es < 1024)%nat
        end)
  /\ (forall n st,
        fst (load_times zlib_decompress NBTFile Chunk n st) = Ok tt ->
        List.length (chunks (self (snd (load_times zlib_decompress NBTFile Chunk n st))))
        = (List.length (chunks (self st)) + 1024 * n)%nat
        /\ name (self (snd (load_times zlib_decompress NBTFile Chunk n st)))
           = name (self st)
        /\ data (self (snd (load_times zlib_decompress NBTFile Chunk n st)))
           = data (self st))
  /\ (forall read_file file_name r calls n,
        init chunk_t read_file file_name = Ok r ->
        fst (load_times zlib_decompress NBTFile Chunk n (mkState r calls)) = Ok tt ->
        List.length
          (chunks (self (snd (load_times zlib_decompress NBTFile Chunk n
                                (mkState r calls)))))
        = (1024 * n)%nat)
  /\ (forall x z st,
        self (snd (chunk_location x z st)) = self st
        /\ self (snd (chunk_data zlib_decompress NBTFile x z st)) = self st).
Proof.
  split; [exact load_frame|]. split; [intros n st; apply load_times_frame|].
  split.
  - intros read_file file_name r calls n Hinit Hok.
    destruct (load_times_frame n _ Hok) as (Hl & _ & _). rewrite Hl.
    unfold init in Hinit. destruct (read_file file_name); [|discriminate].
    injection Hinit as <-. reflexivity.
  - intros x z st. split.
    + now rewrite chunk_location_state.
    + apply chunk_data_state.
Qed.

End Facts.

(** ** The theorems at work on the sample region files *)

Lemma header_offset_injective_witness :
  header_offset 5 9 = header_offset 5 9 /\ (5, 9) = (5, 9).
Proof.
  split; [reflexivity|].
  apply (@header_offset_injective 5 9 5 9); first [lia | reflexivity].
Defined.

Lemma chunk_location_reads_header_witness :
  8192 <= Py.len Sample.region_zlib
  /\ chunk_location 5 9 (Sample.fresh Sample.region_zlib)
     = (Ok (2, 1), Sample.fresh Sample.region_zlib).
Proof.
  assert (8192 <= Py.len (data (self (Sample.fresh Sample.region_zlib)))) as Hlen
    by (vm_compute; discriminate).
  split; [exact Hlen|].
  destruct (chunk_location_reads_header 5 9 (Sample.fresh Sample.region_zlib) Hlen)
    as (b0 & b1 & b2 & b3 & H0 & H1 & H2 & H3 & Hloc & _).
  vm_compute in H0, H1, H2, H3.
  injection H0 as <-. injection H1 as <-. injection H2 as <-. injection H3 as <-.
  exact Hloc.
Defined.

Lemma chunk_data_absent_witness :
  chunk_data Stored.decompress Sample.parse 0 0 (Sample.fresh Sample.region_zlib)
  = (Ok None, Sample.fresh Sample.region_zlib).
Proof.
  refine (proj1 (proj2 (chunk_data_absent Stored.decompress Sample.parse 0 0
                          (Sample.fresh Sample.region_zlib) _))).
  intros i Hi.
  assert (i = 0 \/ i = 1 \/ i = 2 \/ i = 3) as [-> | [-> | [-> | ->]]] by lia;
    vm_compute; reflexivity.
Defined.

Lemma chunk_data_gzip_witness :
  chunk_data Stored.decompress Sample.parse 5 9 (Sample.fresh Sample.region_gzip)
  = (Raise (GZipChunkData "GZip is not supported"),
     Sample.fresh Sample.region_gzip).
Proof.
  refine (proj1 (@chunk_data_gzip _ _ Stored.decompress Sample.parse 5 9
                   (Sample.fresh Sample.region_gzip) (2, 1) _ _ _)).
  - vm_compute; reflexivity.
  - discriminate.
  - vm_compute; reflexivity.
Defined.

(** C1 as stated fails: the record of chunk (5, 9) in [region_tag99] carries
    tag 99, and [chunk_data] neither raises nor keeps away from
    [zlib.decompress]; it inflates the payload and returns the decoded
    plaintext. *)
Lemma chunk_data_tag99_is_inflated :
  fst (chunk_location 5 9 (Sample.fresh Sample.region_tag99)) = Ok (2, 1)
  /\ Py.getitem Sample.region_tag99 (2 * 4096 + 4) = Some 99
  /\ chunk_data Stored.decompress Sample.parse 5 9 (Sample.fresh Sample.region_tag99)
     = (Ok (Some Sample.hello),
        mkState (self (Sample.fresh Sample.region_tag99)) [Sample.hello_z]).
Proof. repeat split; vm_compute; reflexivity. Qed.

Lemma chunk_data_unknown_tag_witness :
  chunk_data Stored.decompress Sample.parse 5 9 (Sample.fresh Sample.region_tag99)
  = (Ok (Some Sample.hello),
     mkState (self (Sample.fresh Sample.region_tag99)) [Sample.hello_z]).
Proof.
  assert (fst (chunk_location 5 9 (Sample.fresh Sample.region_tag99)) = Ok (2, 1))
    as Hloc by (vm_compute; reflexivity).
  assert (Py.getitem (data (self (Sample.fresh Sample.region_tag99)))
            (fst (2, 1) * 4096 + 4) = Some 99) as Htag by (vm_compute; reflexivity).
  pose proof (@chunk_data_unknown_tag _ _ Stored.decompress Sample.parse 5 9
                (Sample.fresh Sample.region_tag99) (2, 1) 99 Hloc
                ltac:(discriminate) Htag ltac:(discriminate) ltac:(discriminate))
    as H.
  cbv zeta in H. rewrite H. vm_compute. reflexivity.
Defined.

Lemma chunk_data_round_trip_witness :
  chunk_data Stored.decompress Sample.parse 5 9 (Sample.fresh Sample.region_zlib)
  = (Ok (Some Sample.hello),
     mkState (self (Sample.fresh Sample.region_zlib)) [Sample.hello_z]).
Proof.
  apply (@chunk_data_round_trip _ _ Stored.decompress Sample.parse 5 9
           (Sample.fresh Sample.region_zlib) (2, 1)
           (firstn (Z.to_nat 8192) Sample.region_zlib)
           (skipn (Z.to_nat 8213) Sample.region_zlib)
           Sample.hello_z Sample.hello).
  - vm_compute; reflexivity.
  - discriminate.
  - vm_compute; reflexivity.
  - vm_compute; reflexivity.
  - vm_compute; reflexivity.
  - vm_compute; reflexivity.
Defined.

(** C8 as stated fails: [region_short] ends 21 bytes into the sector of
    chunk (5, 9), whose record declares 4096 bytes.  [chunk_data] raises no
    bounds error; the clipped slice happens to be a whole zlib stream and the
    call returns its plaintext. *)
Lemma chunk_data_overlong_length_unchecked :
  Py.len Sample.region_short = 8213
  /\ fst (chunk_location 5 9 (Sample.fresh Sample.region_short)) = Ok (2, 1)
  /\ Py.from_bytes_big (Py.slice Sample.region_short 8192 8196) = 4096
  /\ chunk_data Stored.decompress Sample.parse 5 9 (Sample.fresh Sample.region_short)
     = (Ok (Some Sample.hello),
        mkState (self (Sample.fresh Sample.region_short)) [Sample.hello_z]).
Proof. repeat split; vm_compute; reflexivity. Qed.

Lemma chunk_data_clips_declared_length_witness :
  chunk_data Stored.decompress Sample.parse 5 9 (Sample.fresh Sample.region_short)
  = (Ok (Some Sample.hello),
     mkState (self (Sample.fresh Sample.region_short)) [Sample.hello_z]).
Proof.
  assert (fst (chunk_location 5 9 (Sample.fresh Sample.region_short)) = Ok (2, 1))
    as Hloc by (vm_compute; reflexivity).
  assert (Py.getitem (data (self (Sample.fresh Sample.region_short)))
            (fst (2, 1) * 4096 + 4) = Some 2) as Htag by (vm_compute; reflexivity).
  pose proof (@chunk_data_clips_declared_length _ _ Stored.decompress Sample.parse
                5 9 (Sample.fresh Sample.region_short) (2, 1) 2 Hloc
                ltac:(discriminate) Htag ltac:(discriminate)
                ltac:(vm_compute; reflexivity)) as H.
  cbv zeta in H. rewrite H. vm_compute. reflexivity.
Defined.

(** A stretch of a buffer checked to be zero in one pass. *)
Lemma zero_run (l : Py.bytes) (a n k : nat) :
  forallb (fun b => Byte.eqb b x00) (firstn n (skipn a l)) = true ->
  (a <= k < a + n)%nat -> (k < List.length l)%nat ->
  nth_error l k = Some x00.
Proof.
  intros Hall Hk Hlen.
  destruct (nth_error l k) as [b|] eqn:E;
    [|apply nth_error_None in E; lia].
  assert (nth_error (firstn n (skipn a l)) (k - a) = Some b) as Hin.
  { rewrite nth_error_firstn.
    destruct (Nat.ltb_spec (k - a) n); [|lia].
    rewrite nth_error_skipn. now replace (a + (k - a))%nat with k by lia. }
  apply nth_error_In in Hin. rewrite forallb_forall in Hall.
  f_equal. apply Byte.byte_dec_bl. now apply Hall.
Qed.

(** In [region_zlib] the header entry of every chunk but (5, 9) is zero. *)
Lemma sample_header_zero (x z : Z) :
  0 <= x <= 31 -> 0 <= z <= 31 -> (x, z) <> (5, 9) ->
  forall i, 0 <= i <= 3 ->
    nth_error (data (self (Sample.fresh Sample.region_zlib)))
      (Z.to_nat (header_offset x z + i)) = Some x00.
Proof.
  intros Hx Hz Hne i Hi. cbn [Sample.fresh self data].
  assert (List.length Sample.region_zlib = Z.to_nat 12288) as Hlen
    by (vm_compute; reflexivity).
  assert (header_offset x z = 4 * (x + z * 32)) as ->
    by (unfold header_offset; now rewrite !Z.mod_small by lia).
  assert (x + z * 32 <> 293) as Hidx by (intros E; apply Hne; f_equal; lia).
  destruct (Z.lt_ge_cases (x + z * 32) 293) as [Hlow|Hhigh].
  - apply (@zero_run _ 0 (Z.to_nat 1172)); [vm_compute; reflexivity | lia | lia].
  - apply (@zero_run _ (Z.to_nat 1176) (Z.to_nat 2920));
      [vm_compute; reflexivity | lia | lia].
Qed.

Lemma sample_locations (x z : Z) :
  0 <= x <= 31 -> 0 <= z <= 31 -> (x, z) <> (5, 9) ->
  fst (chunk_location x z (Sample.fresh Sample.region_zlib)) = Ok (0, 0).
Proof.
  intros Hx Hz Hne.
  pose proof (sample_header_zero Hx Hz Hne) as Hzero.
  pose proof (Hzero 0 ltac:(lia)) as H0. rewrite Z.add_0_r in H0.
  rewrite (chunk_location_entry x z _ H0
             (Hzero 1 ltac:(lia)) (Hzero 2 ltac:(lia)) (Hzero 3 ltac:(lia))).
  reflexivity.
Qed.

(** In [region_zlib] each of the 1024 retrievals returns. *)
Lemma sample_retrievals_return (x z : Z) :
  0 <= x <= 31 -> 0 <= z <= 31 ->
  exists c,
    fst (get_chunk Stored.decompress Sample.parse Sample.wrap x z
           (Sample.fresh Sample.region_zlib)) = Ok c.
Proof.
  intros Hx Hz.
  destruct (Z.eq_dec x 5) as [->|Hx5].
  - destruct (Z.eq_dec z 9) as [->|Hz9].
    + exists (Sample.present Sample.hello). vm_compute. reflexivity.
    + exists Sample.absent. rewrite get_chunk_unfold, chunk_data_steps.
      rewrite (sample_locations Hx Hz) by congruence. reflexivity.
  - exists Sample.absent. rewrite get_chunk_unfold, chunk_data_steps.
    rewrite (sample_locations Hx Hz) by congruence. reflexivity.
Qed.

Lemma load_sweeps_every_coordinate_witness :
  exists es st',
    load Stored.decompress Sample.parse Sample.wrap (Sample.fresh Sample.region_zlib)
    = (Ok tt, st')
    /\ chunks (self st') = es
    /\ List.length es = 1024%nat
    /\ nth_error es (Z.to_nat (32 * 5 + 9)) = Some (Sample.present Sample.hello)
    /\ nth_error es (Z.to_nat (32 * 9 + 5)) = Some Sample.absent.
Proof.
  destruct (@load_sweeps_every_coordinate _ _ Stored.decompress Sample.parse
              Sample.wrap (Sample.fresh Sample.region_zlib)
              sample_retrievals_return)
    as (es & st' & Hload & Hch & Hlen & _ & Hone).
  exists es, st'. split; [exact Hload|]. split; [exact Hch|].
  split; [exact Hlen|].
  pose proof (Hone 5 9 Sample.absent (Sample.present Sample.hello)
                ltac:(lia) ltac:(lia) eq_refl
                ltac:(vm_compute; reflexivity) sample_locations) as Hat.
  split.
  - exact (Hat 5 9 ltac:(lia) ltac:(lia)).
  - exact (Hat 9 5 ltac:(lia) ltac:(lia)).
Defined.

Lemma load_appends_1024_each_call_witness :
  init Sample.entry Sample.files "r.0.0.mca"
  = Ok (self (Sample.fresh Sample.region_zlib))
  /\ fst (load_times Stored.decompress Sample.parse Sample.wrap 2
            (Sample.fresh Sample.region_zlib)) = Ok tt
  /\ List.length
       (chunks (self (snd (load_times Stored.decompress Sample.parse Sample.wrap 2
                             (Sample.fresh Sample.region_zlib)))))
     = 2048%nat.
Proof.
  assert (init Sample.entry Sample.files "r.0.0.mca"
          = Ok (self (Sample.fresh Sample.region_zlib))) as Hinit by reflexivity.
  assert (fst (load_times Stored.decompress Sample.parse Sample.wrap 2
                 (Sample.fresh Sample.region_zlib)) = Ok tt) as Hok
    by (apply load_times_returns; exact sample_retrievals_return).
  split; [exact Hinit|]. split; [exact Hok|].
  exact (proj1 (proj2 (proj2
           (@load_appends_1024_each_call _ _ Stored.decompress Sample.parse
              Sample.wrap)))
           Sample.files "r.0.0.mca"%string _ [] 2%nat Hinit Hok).
Defined.

(** ** Further properties of the methods *)

Lemma header_offset_shift (x z k m : Z) :
  header_offset (x + 32 * k) (z + 32 * m) = header_offset x z.
Proof.
  unfold header_offset.
  rewrite (Z.mul_comm 32 k), (Z.mul_comm 32 m), !Z.mod_add by lia.
  reflexivity.
Qed.

(** X11: two coordinate pairs, any integers, share a header entry exactly
    when they agree modulo 32 in both components. *)
Theorem header_offset_same_entry (x1 z1 x2 z2 : Z) :
  header_offset x1 z1 = header_offset x2 z2
  <-> x1 mod 32 = x2 mod 32 /\ z1 mod 32 = z2 mod 32.
Proof.
  unfold header_offset.
  pose proof (Z.mod_pos_bound x1 32 ltac:(lia)).
  pose proof (Z.mod_pos_bound x2 32 ltac:(lia)).
  pose proof (Z.mod_pos_bound z1 32 ltac:(lia)).
  pose proof (Z.mod_pos_bound z2 32 ltac:(lia)).
  split; [lia|]. intros [-> ->]. reflexivity.
Qed.

(** X12: each of the 1024 four-byte slots of the header sector is the entry
    of one coordinate pair of [0, 31] x [0, 31] and of no other: slot [k]
    belongs to [(k mod 32, k / 32)]. *)
Theorem header_offset_slots (k : Z) :
  0 <= k <= 1023 ->
  0 <= k mod 32 <= 31 /\ 0 <= k / 32 <= 31
  /\ header_offset (k mod 32) (k / 32) = 4 * k
  /\ forall x z, 0 <= x <= 31 -> 0 <= z <= 31 ->
       header_offset x z = 4 * k -> x = k mod 32 /\ z = k / 32.
Proof.
  intros Hk.
  pose proof (Z.mod_pos_bound k 32 ltac:(lia)) as Hr.
  pose proof (Z.div_mod k 32 ltac:(lia)) as Hdm.
  assert (0 <= k / 32 <= 31) as Hq.
  { split; [apply Z.div_pos; lia | ].
    assert (k / 32 < 32) by (apply Z.div_lt_upper_bound; lia). lia. }
  split; [lia|]. split; [exact Hq|]. split.
  - unfold header_offset. rewrite Z.mod_mod by lia.
    rewrite (Z.mod_small (k / 32)) by lia. lia.
  - intros x z Hx Hz. unfold header_offset.
    rewrite !Z.mod_small by lia. lia.
Qed.

Section MoreFacts.

Context {nbt_t chunk_t : Type}.
Variable zlib_decompress : Py.bytes -> option Py.bytes.
Variable NBTFile : Py.bytes -> option nbt_t.
Variable Chunk : option nbt_t -> option chunk_t.

Implicit Type st : state chunk_t.

(** *** Buffers that end too early *)

Lemma chunk_location_short (x z : Z) st :
  Py.len (data (self st)) <= header_offset x z + 3 ->
  chunk_location x z st = (Raise IndexError, st).
Proof.
  intros Hlen. unfold chunk_location, bind, self_data, index.
  now rewrite PyFacts.getitem_past_end.
Qed.

(** X1: when the buffer ends at or before the last byte of a chunk's header
    entry, [chunk_location] raises [IndexError], and so do [chunk_data] and
    [get_chunk]; nothing is decompressed and the object is unchanged.  An
    empty file does this at every coordinate. *)
Theorem header_entry_out_of_range (x z : Z) st :
  Py.len (data (self st)) <= header_offset x z + 3 ->
  chunk_location x z st = (Raise IndexError, st)
  /\ chunk_data zlib_decompress NBTFile x z st = (Raise IndexError, st)
  /\ get_chunk zlib_decompress NBTFile Chunk x z st = (Raise IndexError, st).
Proof.
  intros Hlen. pose proof (chunk_location_short x z st Hlen) as Hloc.
  assert (chunk_data zlib_decompress NBTFile x z st = (Raise IndexError, st))
    as Hdata by (rewrite chunk_data_steps, Hloc; reflexivity).
  split; [exact Hloc|]. split; [exact Hdata|].
  rewrite get_chunk_unfold, Hdata. reflexivity.
Qed.

(** *** The values a header entry can take *)

Lemma from_bytes_big_bound (s : Py.bytes) :
  Py.from_bytes_big s < 256 ^ Z.of_nat (List.length s).
Proof.
  unfold Py.from_bytes_big.
  assert (forall acc, 0 <= acc ->
            fold_left (fun a b => a * 256 + Py.byte_val b) s acc
            < (acc + 1) * 256 ^ Z.of_nat (List.length s)) as H.
  { induction s as [|b s IH]; intros acc Hacc.
    - cbn. lia.
    - cbn [fold_left List.length]. pose proof (PyFacts.byte_val_range b) as Hb.
      rewrite Nat2Z.inj_succ, Z.pow_succ_r by lia.
      specialize (IH (acc * 256 + Py.byte_val b) ltac:(lia)).
      assert (0 < 256 ^ Z.of_nat (List.length s)) by (apply Z.pow_pos_nonneg; lia).
      nia. }
  specialize (H 0 ltac:(lia)). lia.
Qed.

Lemma slice_length (s : Py.bytes) (a b : Z) :
  0 <= a <= b -> Z.of_nat (List.length (Py.slice s a b)) <= b - a.
Proof.
  intros Hab. pose proof (PyFacts.len_nonneg s).
  rewrite PyFacts.slice_nonneg by lia. rewrite length_firstn. lia.
Qed.

(** X2: whatever the buffer holds, a location that [chunk_location] returns
    has a sector offset in [0, 2^24 - 1] and a sector count in [0, 255]. *)
Theorem chunk_location_bounds (x z : Z) st (loc : Z * Z) :
  fst (chunk_location x z st) = Ok loc ->
  0 <= fst loc <= 16777215 /\ 0 <= snd loc <= 255.
Proof.
  unfold chunk_location, bind, self_data, index, ret, raise.
  pose proof (header_offset_range x z) as Hh.
  destruct (Py.getitem _ _) as [v|] eqn:E; cbn [fst]; [|discriminate].
  intros [= <-]. cbn [fst snd].
  set (s := Py.slice _ _ _).
  pose proof (from_bytes_big_nonneg s). pose proof (from_bytes_big_bound s) as Hb.
  assert (Z.of_nat (List.length s) <= 3) as Hl.
  { unfold s. etransitivity; [apply slice_length; lia | lia]. }
  assert (256 ^ Z.of_nat (List.length s) <= 256 ^ 3)
    by (apply Z.pow_le_mono_r; lia).
  change (256 ^ 3) with 16777216 in *.
  destruct (@PyFacts.getitem_inv (data (self st)) (header_offset x z + 3) v
              ltac:(lia) E) as (_ & b & _ & ->).
  pose proof (PyFacts.byte_val_range b). lia.
Qed.

(** X3: a non-zero header entry whose sector lies at or beyond the end of the
    buffer, so that the tag byte at [offset + 4] is missing, makes
    [chunk_data] raise [IndexError]; nothing is decompressed. *)
Theorem chunk_data_sector_out_of_range (x z : Z) st (loc : Z * Z) :
  fst (chunk_location x z st) = Ok loc ->
  loc <> (0, 0) ->
  Py.len (data (self st)) <= fst loc * 4096 + 4 ->
  chunk_data zlib_decompress NBTFile x z st = (Raise IndexError, st).
Proof.
  intros Hloc Hnz Hlen. rewrite chunk_data_steps, Hloc. unfold after_location.
  rewrite (is_zero_pair_false Hnz), PyFacts.getitem_past_end by assumption.
  reflexivity.
Qed.

(** X4: coordinates are used modulo 32 throughout: shifting either one by a
    multiple of 32, in either direction, changes nothing in what
    [chunk_location], [chunk_data] and [get_chunk] do. *)
Theorem retrieval_wraps_coordinates (x z k m : Z) st :
  chunk_location (x + 32 * k) (z + 32 * m) st = chunk_location x z st
  /\ chunk_data zlib_decompress NBTFile (x + 32 * k) (z + 32 * m) st
     = chunk_data zlib_decompress NBTFile x z st
  /\ get_chunk zlib_decompress NBTFile Chunk (x + 32 * k) (z + 32 * m) st
     = get_chunk zlib_decompress NBTFile Chunk x z st.
Proof.
  assert (chunk_location (x + 32 * k) (z + 32 * m) st = chunk_location x z st)
    as Hloc by (unfold chunk_location; now rewrite header_offset_shift).
  assert (chunk_data zlib_decompress NBTFile (x + 32 * k) (z + 32 * m) st
          = chunk_data zlib_decompress NBTFile x z st) as Hdata
    by (rewrite !chunk_data_steps, Hloc; reflexivity).
  split; [exact Hloc|]. split; [exact Hdata|].
  rewrite !get_chunk_unfold, Hdata. reflexivity.
Qed.

(** *** Which outcomes [chunk_data] has *)

(** X5: [chunk_data] returns [None] for the chunks whose header entry reads
    [(0, 0)] and for no others: an entry with only one of sector offset and
    sector count zero is taken as a chunk that exists. *)
Theorem chunk_data_none_iff (x z : Z) st :
  fst (chunk_data zlib_decompress NBTFile x z st) = Ok None
  <-> fst (chunk_location x z st) = Ok (0, 0).
Proof.
  rewrite chunk_data_steps.
  destruct (fst (chunk_location x z st)) as [loc|e];
    [|split; discriminate].
  unfold after_location. destruct (is_zero_pair loc) eqn:Ez.
  - apply is_zero_pair_true in Ez. subst loc. split; reflexivity.
  - split.
    + destruct (Py.getitem _ _) as [c|]; [|discriminate].
      destruct (c =? 1); [discriminate|]. cbn [fst].
      unfold inflate_result, parse_result.
      destruct (zlib_decompress _) as [p|]; [|discriminate].
      destruct (NBTFile p); discriminate.
    + intros [= ->]. discriminate.
Qed.

(** X6: for a chunk that exists and whose tag is not 1, the bytes given to
    [zlib.decompress] are the first [L - 1] of those that follow the tag
    byte, fewer when the buffer ends before; no byte before [offset + 5] is
    among them, and a declared length of 0 or 1 gives the empty string. *)
Theorem chunk_data_payload_window (x z : Z) st (loc : Z * Z) (c : Z) :
  let d := data (self st) in
  let off := fst loc * 4096 in
  let L := Py.from_bytes_big (Py.slice d off (off + 4)) in
  fst (chunk_location x z st) = Ok loc ->
  loc <> (0, 0) ->
  Py.getitem d (off + 4) = Some c ->
  c <> 1 ->
  let s := firstn (Z.to_nat (L - 1)) (skipn (Z.to_nat (off + 5)) d) in
  chunk_data zlib_decompress NBTFile x z st
  = (inflate_result zlib_decompress NBTFile s,
     mkState (self st) (inflated st ++ [s]))
  /\ (L <= 1 -> s = []).
Proof.
  intros d off L Hloc Hnz Htag Hc s.
  pose proof (chunk_location_nonneg x z st Hloc) as Hoff.
  destruct (@PyFacts.getitem_inv d (off + 4) c ltac:(unfold off; lia) Htag)
    as [Hin _].
  pose proof (from_bytes_big_nonneg (Py.slice d off (off + 4))) as HL.
  fold L in HL.
  assert (Py.slice d (off + 5) (off + 5 + L - 1) = s) as Hs.
  { rewrite PyFacts.slice_nonneg by (unfold off; lia).
    rewrite (Z.min_l (off + 5)) by lia. unfold s.
    destruct (Z.le_gt_cases (Py.len d) (off + 5 + L - 1)) as [Hpast|Hfit].
    - rewrite Z.min_r by lia.
      rewrite !firstn_all2; [reflexivity | |];
        rewrite length_skipn; unfold Py.len in *; lia.
    - rewrite Z.min_l by lia. f_equal. lia. }
  split.
  - rewrite (chunk_data_inflates zlib_decompress NBTFile x z st Hloc Hnz Htag Hc).
    fold d. fold off. fold L. now rewrite Hs.
  - intros HL1. unfold s. replace (Z.to_nat (L - 1)) with 0%nat by lia.
    reflexivity.
Qed.

Lemma chunk_location_raises (x z : Z) st (e : exn) :
  fst (chunk_location x z st) = Raise e -> e = IndexError.
Proof.
  unfold chunk_location, bind, self_data, index, ret, raise.
  destruct (Py.getitem _ _); cbn [fst]; [discriminate|]. now intros [= <-].
Qed.

(** X7: the outcomes of [chunk_data].  It returns [None], or raises
    [IndexError] or [GZipChunkData], without having called
    [zlib.decompress]; or it has called [zlib.decompress] once, and then it
    returns a decoded tree or raises the error of [zlib] or of the NBT
    decoder.  It raises nothing else, and the object is the same after every
    outcome. *)
Theorem chunk_data_outcomes (x z : Z) st :
  match fst (chunk_data zlib_decompress NBTFile x z st) with
  | Ok None | Raise IndexError | Raise (GZipChunkData _) =>
      snd (chunk_data zlib_decompress NBTFile x z st) = st
  | Ok (Some _) | Raise zlib_error | Raise MalformedFileError =>
      exists s,
        snd (chunk_data zlib_decompress NBTFile x z st)
        = mkState (self st) (inflated st ++ [s])
  | Raise OSError | Raise ChunkError => False
  end.
Proof.
  rewrite chunk_data_steps.
  destruct (fst (chunk_location x z st)) as [loc|e] eqn:Eloc.
  - unfold after_location.
    destruct (is_zero_pair loc); [reflexivity|].
    destruct (Py.getitem _ _) as [c|]; [|reflexivity].
    destruct (c =? 1); [reflexivity|]. cbn [fst snd].
    unfold inflate_result, parse_result.
    destruct (zlib_decompress _) as [p|]; [|eexists; reflexivity].
    destruct (NBTFile p); eexists; reflexivity.
  - apply chunk_location_raises in Eloc. subst e. reflexivity.
Qed.

(** *** When [load] returns and when it raises *)

Lemma coords_index (k : nat) :
  (k < 1024)%nat ->
  nth_error coords k = Some (Z.of_nat k / 32, Z.of_nat k mod 32)
  /\ 0 <= Z.of_nat k / 32 <= 31 /\ 0 <= Z.of_nat k mod 32 <= 31.
Proof.
  intros Hk.
  pose proof (Z.mod_pos_bound (Z.of_nat k) 32 ltac:(lia)) as Hr.
  pose proof (Z.div_mod (Z.of_nat k) 32 ltac:(lia)) as Hdm.
  assert (0 <= Z.of_nat k / 32 <= 31) as Hq.
  { split; [apply Z.div_pos; lia | ].
    assert (Z.of_nat k / 32 < 32) by (apply Z.div_lt_upper_bound; lia). lia. }
  split; [|split; [exact Hq | lia]].
  rewrite <- (@coords_nth (Z.of_nat k / 32) (Z.of_nat k mod 32)) by lia.
  f_equal. lia.
Qed.

Lemma load_ok_all st :
  fst (load zlib_decompress NBTFile Chunk st) = Ok tt ->
  forall x z, 0 <= x <= 31 -> 0 <= z <= 31 ->
    exists c, fst (get_chunk zlib_decompress NBTFile Chunk x z st) = Ok c.
Proof.
  intros Hok x z Hx Hz.
  destruct (sweep_spec zlib_decompress NBTFile Chunk coords st st eq_refl)
    as (es & _ & _ & _ & Hall & Hend).
  rewrite <- load_as_sweep in Hend. rewrite Hok in Hend.
  rewrite Hend, firstn_all in Hall.
  destruct (Forall2_at Hall _ (coords_nth Hx Hz)) as (c & _ & Hc).
  now exists c.
Qed.

(** X8: when [load] raises, it raises the error of the first retrieval that
    fails in the order of the sweep, at some [(x, z)]; the entries of the
    [32 * x + z] coordinates before it have been appended and stay in
    [chunks], and no later coordinate is visited. *)
Theorem load_stops_at_first_failure st (e : exn) :
  fst (load zlib_decompress NBTFile Chunk st) = Raise e ->
  exists x z es,
    0 <= x <= 31 /\ 0 <= z <= 31
    /\ fst (get_chunk zlib_decompress NBTFile Chunk x z st) = Raise e
    /\ chunks (self (snd (load zlib_decompress NBTFile Chunk st)))
       = chunks (self st) ++ es
    /\ Z.of_nat (List.length es) = 32 * x + z
    /\ forall x' z', 0 <= x' <= 31 -> 0 <= z' <= 31 ->
         32 * x' + z' < 32 * x + z ->
         exists c,
           fst (get_chunk zlib_decompress NBTFile Chunk x' z' st) = Ok c
           /\ nth_error es (Z.to_nat (32 * x' + z')) = Some c.
Proof.
  intros Hraise.
  destruct (sweep_spec zlib_decompress NBTFile Chunk coords st st eq_refl)
    as (es & Hch & _ & _ & Hall & Hend).
  rewrite <- load_as_sweep in Hch, Hend. rewrite Hraise in Hend.
  destruct Hend as (p & Hp & He).
  assert (List.length es < 1024)%nat as Hlt
    by (rewrite <- coords_length; apply nth_error_Some; congruence).
  destruct (coords_index Hlt) as (Hk & Hq & Hr).
  rewrite Hk in Hp. injection Hp as <-. cbn [fst snd] in He.
  pose proof (Z.div_mod (Z.of_nat (List.length es)) 32 ltac:(lia)) as Hdm.
  exists (Z.of_nat (List.length es) / 32), (Z.of_nat (List.length es) mod 32), es.
  do 4 (split; [assumption|]). split; [lia|].
  intros x' z' Hx' Hz' Hbefore.
  assert (nth_error (firstn (List.length es) coords) (Z.to_nat (32 * x' + z'))
          = Some (x', z')) as Hnth.
  { rewrite nth_error_firstn.
    destruct (Nat.ltb_spec (Z.to_nat (32 * x' + z')) (List.length es)); [|lia].
    now apply coords_nth. }
  destruct (Forall2_at Hall _ Hnth) as (c & Hc & Hget).
  exists c. split; assumption.
Qed.

(** X9: [load] returns exactly when every one of the 1024 retrievals
    returns; one failing retrieval anywhere in the region makes it raise. *)
Theorem load_returns_iff st :
  fst (load zlib_decompress NBTFile Chunk st) = Ok tt
  <-> forall x z, 0 <= x <= 31 -> 0 <= z <= 31 ->
        exists c, fst (get_chunk zlib_decompress NBTFile Chunk x z st) = Ok c.
Proof.
  split; [apply load_ok_all | apply load_returns].
Qed.

(** X10: on a buffer shorter than the 4096-byte header sector [load] never
    returns: at the latest the entry of chunk (31, 31) is out of range. *)
Theorem load_truncated_header st :
  Py.len (data (self st)) < 4096 ->
  exists e, fst (load zlib_decompress NBTFile Chunk st) = Raise e.
Proof.
  intros Hlen.
  destruct (fst (load zlib_decompress NBTFile Chunk st)) as [[]|e] eqn:E;
    [exfalso | now exists e].
  destruct (load_ok_all st E (x := 31) (z := 31) ltac:(lia) ltac:(lia))
    as [c Hc].
  rewrite get_chunk_unfold, chunk_data_steps in Hc.
  rewrite chunk_location_short in Hc; [discriminate|].
  change (header_offset 31 31) with 4092. lia.
Qed.

(** X13: [load], whether it returns or raises, changes nothing in what a
    later lookup or retrieval gives: these depend on the file bytes, not on
    the [chunks] list. *)
Theorem retrieval_unaffected_by_load (x z : Z) st :
  let st' := snd (load zlib_decompress NBTFile Chunk st) in
  fst (chunk_location x z st') = fst (chunk_location x z st)
  /\ fst (chunk_data zlib_decompress NBTFile x z st')
     = fst (chunk_data zlib_decompress NBTFile x z st)
  /\ fst (get_chunk zlib_decompress NBTFile Chunk x z st')
     = fst (get_chunk zlib_decompress NBTFile Chunk x z st).
Proof.
  intros st'.
  destruct (load_frame zlib_decompress NBTFile Chunk st) as (_ & _ & _ & Hd & _).
  fold st' in Hd. split; [|split].
  - apply chunk_location_header_only. now rewrite Hd.
  - now apply chunk_data_data_only.
  - now apply get_chunk_data_only.
Qed.

(** X14: for a chunk whose header entry reads [(0, 0)], [get_chunk] raises
    nothing of its own: it hands [None] to [anvil.Chunk], and what that
    constructor returns or raises is the outcome; nothing is decompressed. *)
Theorem get_chunk_absent (x z : Z) st :
  fst (chunk_location x z st) = Ok (0, 0) ->
  get_chunk zlib_decompress NBTFile Chunk x z st
  = (match Chunk None with
     | Some c => Ok c
     | None => Raise ChunkError
     end, st).
Proof.
  intros Hloc. rewrite get_chunk_unfold, chunk_data_steps, Hloc. reflexivity.
Qed.

End MoreFacts.

(** ** The further properties at work *)

Lemma header_offset_slots_witness :
  0 <= 293 <= 1023 /\ header_offset (293 mod 32) (293 / 32) = 4 * 293.
Proof.
  assert (0 <= 293 <= 1023) as Hk by lia.
  split; [exact Hk|].
  exact (proj1 (proj2 (proj2 (header_offset_slots Hk)))).
Defined.

Lemma header_entry_out_of_range_witness :
  get_chunk Stored.decompress Sample.parse Sample.wrap 5 9
    (Sample.fresh (firstn 1000 Sample.region_zlib))
  = (Raise IndexError, Sample.fresh (firstn 1000 Sample.region_zlib)).
Proof.
  refine (proj2 (proj2 (@header_entry_out_of_range _ _ Stored.decompress
                          Sample.parse Sample.wrap 5 9
                          (Sample.fresh (firstn 1000 Sample.region_zlib)) _))).
  vm_compute. discriminate.
Defined.

Lemma chunk_location_bounds_witness :
  fst (chunk_location 5 9 (Sample.fresh Sample.region_zlib)) = Ok (2, 1)
  /\ 0 <= fst (2, 1) <= 16777215 /\ 0 <= snd (2, 1) <= 255.
Proof.
  assert (fst (chunk_location 5 9 (Sample.fresh Sample.region_zlib)) = Ok (2, 1))
    as Hloc by (vm_compute; reflexivity).
  split; [exact Hloc|].
  exact (chunk_location_bounds 5 9 (Sample.fresh Sample.region_zlib) Hloc).
Defined.

Lemma chunk_data_sector_out_of_range_witness :
  chunk_data Stored.decompress Sample.parse 5 9
    (Sample.fresh (firstn (Z.to_nat 8192) Sample.region_zlib))
  = (Raise IndexError, Sample.fresh (firstn (Z.to_nat 8192) Sample.region_zlib)).
Proof.
  apply (@chunk_data_sector_out_of_range _ _ Stored.decompress Sample.parse 5 9
           (Sample.fresh (firstn (Z.to_nat 8192) Sample.region_zlib)) (2, 1)).
  - vm_compute; reflexivity.
  - discriminate.
  - vm_compute. discriminate.
Defined.

Lemma chunk_data_payload_window_witness :
  chunk_data Stored.decompress Sample.parse 5 9 (Sample.fresh Sample.region_zlib)
  = (Ok (Some Sample.hello),
     mkState (self (Sample.fresh Sample.region_zlib)) [Sample.hello_z]).
Proof.
  assert (fst (chunk_location 5 9 (Sample.fresh Sample.region_zlib)) = Ok (2, 1))
    as Hloc by (vm_compute; reflexivity).
  assert (Py.getitem (data (self (Sample.fresh Sample.region_zlib)))
            (fst (2, 1) * 4096 + 4) = Some 2) as Htag by (vm_compute; reflexivity).
  pose proof (proj1 (@chunk_data_payload_window _ _ Stored.decompress Sample.parse
                       5 9 (Sample.fresh Sample.region_zlib) (2, 1) 2 Hloc
                       ltac:(discriminate) Htag ltac:(discriminate))) as H.
  cbv zeta in H. rewrite H. vm_compute. reflexivity.
Defined.

Lemma load_stops_at_first_failure_witness :
  fst (load Stored.decompress Sample.parse Sample.wrap
         (Sample.fresh (repeat x00 130))) = Raise IndexError
  /\ exists x z es,
       fst (get_chunk Stored.decompress Sample.parse Sample.wrap x z
              (Sample.fresh (repeat x00 130))) = Raise IndexError
       /\ chunks (self (snd (load Stored.decompress Sample.parse Sample.wrap
                               (Sample.fresh (repeat x00 130))))) = es
       /\ Z.of_nat (List.length es) = 32 * x + z.
Proof.
  assert (fst (load Stored.decompress Sample.parse Sample.wrap
                 (Sample.fresh (repeat x00 130))) = Raise IndexError) as Hraise
    by (vm_compute; reflexivity).
  split; [exact Hraise|].
  destruct (@load_stops_at_first_failure _ _ Stored.decompress Sample.parse
              Sample.wrap (Sample.fresh (repeat x00 130)) IndexError Hraise)
    as (x & z & es & _ & _ & Hget & Hch & Hlen & _).
  exists x, z, es. split; [exact Hget|]. split; [exact Hch|]. exact Hlen.
Defined.

Lemma load_truncated_header_witness :
  exists e,
    fst (load Stored.decompress Sample.parse Sample.wrap
           (Sample.fresh (repeat x00 130))) = Raise e.
Proof.
  apply (@load_truncated_header _ _ Stored.decompress Sample.parse Sample.wrap
           (Sample.fresh (repeat x00 130))).
  vm_compute. reflexivity.
Defined.

Lemma get_chunk_absent_witness :
  get_chunk Stored.decompress Sample.parse Sample.wrap 0 0
    (Sample.fresh Sample.region_zlib)
  = (Ok Sample.absent, Sample.fresh Sample.region_zlib).
Proof.
  apply (@get_chunk_absent _ _ Stored.decompress Sample.parse Sample.wrap 0 0
           (Sample.fresh Sample.region_zlib)).
  vm_compute. reflexivity.
Defined.
